(** * PMG1 CapSense CSD button tuning: the foreground program of [main.c]

    [main.c] is a sequence of calls into the board support package, the PDL
    and the CapSense middleware.  None of those libraries is part of the
    repository, so the program is embedded as a computation over an abstract
    platform: every library call is answered by the platform, which owns the
    hardware and middleware state (the "world") and may move it at each call
    (interrupt handlers run inside the world).  The program's own state is its
    global variables.  Each call is logged, in program order, so that
    statements about the order and the arguments of calls can be made. *)

From Stdlib Require Import ZArith List Bool String Ascii Lia.
Import ListNotations.
Open Scope Z_scope.

(** ** Macros of [main.c] *)

Definition CY_ASSERT_FAILED : Z := 0.
Definition EZI2C_INTR_PRIORITY : Z := 2.
Definition CAPSENSE_INTR_PRIORITY : Z := 3.
Definition NO_BUTTON_TOUCH : Z := 0.

(** ** Symbols declared by headers that are not part of the repository

    [cybsp.h], [cycfg.h], [cycfg_capsense.h] and the PDL give these their
    values; the program is read for any values.  [CY_CAPSENSE_BIST_EN] is the
    middleware's compile-time switch; [DEBUG_PRINT] is defined by [main.c]
    itself (to 0, see [DEBUG_PRINT_in_source]) and is meant to be edited, so
    both sides of each [#if] are embedded. *)
Class Headers : Type := {
  CY_RSLT_SUCCESS : Z;
  CY_SCB_EZI2C_SUCCESS : Z;
  CY_SYSINT_SUCCESS : Z;
  CY_CAPSENSE_STATUS_SUCCESS : Z;
  CY_CAPSENSE_BUSY : Z;
  CYBSP_EZI2C_IRQ : Z;
  CYBSP_CSD_IRQ : Z;
  cy_capsense_tuner : Z;             (* address of the tuner structure *)
  sizeof_cy_capsense_tuner : Z;
  CY_CAPSENSE_BUTTON0_WDGT_ID : Z;
  CY_CAPSENSE_BUTTON0_SNS0_ID : Z;
  CY_CAPSENSE_BUTTON1_WDGT_ID : Z;
  CY_CAPSENSE_BUTTON1_SNS0_ID : Z;
  CYBSP_LED_BTN0_PORT : Z;
  CYBSP_LED_BTN0_NUM : Z;
  CYBSP_LED_BTN1_PORT : Z;
  CYBSP_LED_BTN1_NUM : Z;
  CYBSP_LED_STATE_ON : Z;
  CYBSP_LED_STATE_OFF : Z;
  CY_CAPSENSE_BIST_EN : bool;
  DEBUG_PRINT : bool
}.

(** [#define DEBUG_PRINT (0u)] *)
Definition DEBUG_PRINT_in_source : bool := false.

(** ** Interrupt configuration structures *)

Record cy_stc_sysint_t : Type := {
  intrSrc : Z;
  intrPriority : Z
}.

(** The two interrupt service routines of [main.c], as passed to
    [Cy_SysInt_Init]. *)
Inductive Isr : Type := capsense_isr | ezi2c_isr.

(** ** Library calls

    One constructor per library function the program calls, with the
    arguments that vary; the peripheral base addresses ([CYBSP_EZI2C_HW],
    [CYBSP_UART_HW], [CYBSP_CSD_HW]) and the context pointers
    ([&cy_capsense_context], [&ezi2c_context], [&CYBSP_UART_context]) are the
    same at every call and are left out. *)
Inductive Api : Type :=
| cybsp_init
| Cy_SCB_UART_Init
| Cy_SCB_UART_Enable
| Cy_SCB_UART_PutString (s : string)
| __enable_irq
| Cy_SCB_EZI2C_Init
| Cy_SysInt_Init (config : cy_stc_sysint_t) (userIsr : Isr)
| NVIC_EnableIRQ (IRQn : Z)
| NVIC_ClearPendingIRQ (IRQn : Z)
| Cy_SCB_EZI2C_SetBuffer1 (buffer size rwBoundary : Z)
| Cy_SCB_EZI2C_Enable
| Cy_SCB_EZI2C_Interrupt
| Cy_CapSense_Init
| Cy_CapSense_Enable
| Cy_CapSense_InterruptHandler
| Cy_CapSense_ScanAllWidgets
| Cy_CapSense_IsBusy
| Cy_CapSense_ProcessAllWidgets
| Cy_CapSense_IsWidgetActive (widgetId : Z)
| Cy_GPIO_Write (port pinNum value : Z)
| Cy_CapSense_RunTuner
| Cy_CapSense_MeasureCapacitanceSensor (widgetId sensorId : Z).

(** What a call gives back: its return value ([retval], meaningless for a
    [void] function) and, for [Cy_CapSense_MeasureCapacitanceSensor], what it
    stores through its [ptrValue] argument ([None]: nothing stored). *)
Record Resp : Type := {
  retval : Z;
  ptrValue : option Z
}.

Inductive Event : Type :=
| Called (a : Api) (r : Resp).

Definition api_of (e : Event) : Api := let 'Called a _ := e in a.
Definition resp_of (e : Event) : Resp := let 'Called _ r := e in r.

(** The platform: how the world answers a call and moves. *)
Class Platform (W : Type) : Type := {
  respond : Api -> W -> Resp * W
}.

(** ** Global variables of [main.c]

    [Globals] holds the variables [main.c] itself reads or assigns.  The
    driver contexts [ezi2c_context] and [CYBSP_UART_context] are also defined
    in [main.c], but the program only hands their addresses to the drivers,
    which own their content: like [cy_capsense_context] they are part of the
    world that library calls move, not of [Globals]. *)

Record Globals : Type := {
  button_0_sensor_cp : Z;
  button_1_sensor_cp : Z;
  cp_0_status : Z;
  cp_1_status : Z;
  ENTER_LOOP : bool
}.

(** [uint32_t button_0_sensor_cp = 0, button_1_sensor_cp = 0;] the status
    variables are zero-initialised statics; [volatile bool ENTER_LOOP = true]. *)
Definition initial_globals : Globals :=
  {| button_0_sensor_cp := 0; button_1_sensor_cp := 0;
     cp_0_status := 0; cp_1_status := 0; ENTER_LOOP := true |}.

(** ** The monad of the program: state, halting and a log of calls *)

Inductive Result (A : Type) : Type :=
| Ok (a : A)
| Halt.
Arguments Ok {A} a.
Arguments Halt {A}.

Record State (W : Type) : Type := {
  world : W;
  globals : Globals
}.
Arguments world {W} _.
Arguments globals {W} _.

Record Out (W A : Type) : Type := {
  res : Result A;
  st : State W;
  evs : list Event
}.
Arguments res {W A} _.
Arguments st {W A} _.
Arguments evs {W A} _.

Definition M (W A : Type) : Type := State W -> Out W A.

Definition ret {W A} (a : A) : M W A :=
  fun s => {| res := Ok a; st := s; evs := [] |}.

Definition bind {W A B} (m : M W A) (k : A -> M W B) : M W B :=
  fun s =>
    match m s with
    | {| res := Ok a; st := s1; evs := e1 |} =>
        match k a s1 with
        | {| res := r; st := s2; evs := e2 |} =>
            {| res := r; st := s2; evs := e1 ++ e2 |}
        end
    | {| res := Halt; st := s1; evs := e1 |} =>
        {| res := Halt; st := s1; evs := e1 |}
    end.

Declare Scope prog_scope.
Delimit Scope prog_scope with prog.
Notation "x <- m ;; k" := (bind m (fun x => k))
  (at level 61, m at next level, right associativity) : prog_scope.
Notation "m ;; k" := (bind m (fun _ => k))
  (at level 61, right associativity) : prog_scope.

Definition get_globals {W} : M W Globals :=
  fun s => {| res := Ok (globals s); st := s; evs := [] |}.

Definition put_globals {W} (g : Globals) : M W unit :=
  fun s => {| res := Ok tt; st := {| world := world s; globals := g |}; evs := [] |}.

(** A library call: the platform answers, the world moves, the call is
    logged. *)
Definition call {W} `{Platform W} (a : Api) : M W Resp :=
  fun s =>
    let rw := respond a (world s) in
    {| res := Ok (fst rw);
       st := {| world := snd rw; globals := globals s |};
       evs := [Called a (fst rw)] |}.

(** Modelled from the spec: [CY_ASSERT] is a PDL macro, declared outside the
    repository.  A failed assertion is a fatal halt ("Board init failed. Stop
    program execution" in [main.c]; "fatal, halts before entering the main
    cycle" in the specification): nothing after it runs. *)
Definition CY_ASSERT {W} (x : Z) : M W unit :=
  fun s => {| res := if x =? 0 then Halt else Ok tt; st := s; evs := [] |}.

Definition when {W} (b : bool) (m : M W unit) : M W unit :=
  if b then m else ret tt.

(** ** [check_status] (compiled only under [DEBUG_PRINT]) *)

Definition CR : string := String (ascii_of_nat 13) EmptyString.
Definition LF : string := String (ascii_of_nat 10) EmptyString.
Definition ESC : string := String (ascii_of_nat 27) EmptyString.

Definition hex_digit (d : Z) : ascii :=
  if d <? 10 then ascii_of_nat (Z.to_nat (48 + d))
  else ascii_of_nat (Z.to_nat (55 + d)).

(** The [n] low hexadecimal digits of [v], most significant first. *)
Fixpoint hex_digits (n : nat) (v : Z) (acc : string) : string :=
  match n with
  | O => acc
  | S k => hex_digits k (Z.shiftr v 4) (String (hex_digit (Z.land v 15)) acc)
  end.

(** [sprintf(error_msg, "Error Code: 0x%08" PRIX32 "\n", status)] with
    [status] a 32-bit unsigned value. *)
Definition error_msg (status : Z) : string :=
  ("Error Code: 0x" ++ hex_digits 8 (status mod 2 ^ 32) EmptyString ++ LF)%string.

Arguments error_msg : simpl never.

Definition banner : string :=
  (CR ++ LF ++ "=====================================================" ++ CR ++ LF)%string.

Section Program.

Context {W : Type} `{Platform W} `{Headers}.

Local Open Scope prog_scope.

Definition check_status (message : string) (status : Z) : M W unit :=
  call (Cy_SCB_UART_PutString banner) ;;
  call (Cy_SCB_UART_PutString (LF ++ "FAIL: ")) ;;
  call (Cy_SCB_UART_PutString message) ;;
  call (Cy_SCB_UART_PutString (CR ++ LF)) ;;
  call (Cy_SCB_UART_PutString (error_msg status)) ;;
  call (Cy_SCB_UART_PutString banner) ;;
  ret tt.

(** ** Interrupt configuration and service routines *)

Definition ezi2c_intr_config : cy_stc_sysint_t :=
  {| intrSrc := CYBSP_EZI2C_IRQ; intrPriority := EZI2C_INTR_PRIORITY |}.

Definition capsense_interrupt_config : cy_stc_sysint_t :=
  {| intrSrc := CYBSP_CSD_IRQ; intrPriority := CAPSENSE_INTR_PRIORITY |}.


(** ** [measure_sensor_cp] (compiled only under [CY_CAPSENSE_BIST_EN]) *)

Definition stored (v : option Z) (old : Z) : Z :=
  match v with Some x => x | None => old end.

Definition measure_sensor_cp : M W unit :=
  r0 <- call (Cy_CapSense_MeasureCapacitanceSensor
                CY_CAPSENSE_BUTTON0_WDGT_ID CY_CAPSENSE_BUTTON0_SNS0_ID) ;;
  g <- get_globals ;;
  put_globals {| button_0_sensor_cp := stored (ptrValue r0) (button_0_sensor_cp g);
                 button_1_sensor_cp := button_1_sensor_cp g;
                 cp_0_status := retval r0;
                 cp_1_status := cp_1_status g;
                 ENTER_LOOP := ENTER_LOOP g |} ;;
  r1 <- call (Cy_CapSense_MeasureCapacitanceSensor
                CY_CAPSENSE_BUTTON1_WDGT_ID CY_CAPSENSE_BUTTON1_SNS0_ID) ;;
  g <- get_globals ;;
  put_globals {| button_0_sensor_cp := button_0_sensor_cp g;
                 button_1_sensor_cp := stored (ptrValue r1) (button_1_sensor_cp g);
                 cp_0_status := cp_0_status g;
                 cp_1_status := retval r1;
                 ENTER_LOOP := ENTER_LOOP g |}.

(** ** [main]: the start-up sequence *)

(** [if (status != SUCCESS) { check_status(...) under DEBUG_PRINT;
    CY_ASSERT(CY_ASSERT_FAILED); }] *)
Definition halt_unless (status success : Z) (message : option string) : M W unit :=
  when (negb (status =? success))
    (when DEBUG_PRINT
       match message with
       | Some msg => check_status msg status
       | None => ret tt
       end ;;
     CY_ASSERT CY_ASSERT_FAILED).

Definition main_startup : M W unit :=
  (* Initialize the device and board peripherals *)
  result <- call cybsp_init ;;
  halt_unless (retval result) CY_RSLT_SUCCESS None ;;
  when DEBUG_PRINT
    (call Cy_SCB_UART_Init ;;
     call Cy_SCB_UART_Enable ;;
     call (Cy_SCB_UART_PutString (ESC ++ "[2J" ++ ESC ++ "[;H")) ;;
     call (Cy_SCB_UART_PutString "****************** ") ;;
     call (Cy_SCB_UART_PutString "PMG1 MCU: CapsenseTM CSD Button Tuning") ;;
     call (Cy_SCB_UART_PutString ("****************** " ++ CR ++ LF ++ LF)) ;;
     ret tt) ;;
  (* Enable global interrupts *)
  call __enable_irq ;;
  (* Initialize the EZI2C firmware module *)
  ezi2c_result <- call Cy_SCB_EZI2C_Init ;;
  halt_unless (retval ezi2c_result) CY_SCB_EZI2C_SUCCESS
    (Some "API Cy_SCB_EZI2C_Init failed with error code"%string) ;;
  intr_result <- call (Cy_SysInt_Init ezi2c_intr_config ezi2c_isr) ;;
  halt_unless (retval intr_result) CY_SYSINT_SUCCESS
    (Some "API Cy_SysInt_Init failed with error code"%string) ;;
  (* Enable EZI2C interrupt *)
  call (NVIC_EnableIRQ (intrSrc ezi2c_intr_config)) ;;
  (* Set the CapSense data structure as the I2C buffer *)
  call (Cy_SCB_EZI2C_SetBuffer1 cy_capsense_tuner
          sizeof_cy_capsense_tuner sizeof_cy_capsense_tuner) ;;
  (* Enables the SCB block for the EZI2C operation *)
  call Cy_SCB_EZI2C_Enable ;;
  (* Capture the CSD HW block and initialize it to the default state *)
  cap_result <- call Cy_CapSense_Init ;;
  halt_unless (retval cap_result) CY_CAPSENSE_STATUS_SUCCESS
    (Some "API Cy_CapSense_Init failed with error code"%string) ;;
  (* Initialize CapSense interrupt *)
  intr_result <- call (Cy_SysInt_Init capsense_interrupt_config capsense_isr) ;;
  halt_unless (retval intr_result) CY_SYSINT_SUCCESS
    (Some "API Cy_SysInt_Init failed with error code"%string) ;;
  (* Clear the pending interrupt, enable the CapSense interrupt *)
  call (NVIC_ClearPendingIRQ (intrSrc capsense_interrupt_config)) ;;
  call (NVIC_EnableIRQ (intrSrc capsense_interrupt_config)) ;;
  (* Initialize the CapSense firmware modules *)
  cap_result <- call Cy_CapSense_Enable ;;
  halt_unless (retval cap_result) CY_CAPSENSE_STATUS_SUCCESS
    (Some "API Cy_CapSense_Enable failed with error code"%string) ;;
  (* Start the first scan *)
  cap_result <- call Cy_CapSense_ScanAllWidgets ;;
  halt_unless (retval cap_result) CY_CAPSENSE_STATUS_SUCCESS
    (Some "API Cy_CapSense_ScanAllWidgets failed with error code"%string).

(** ** [main]: one iteration of [for (;;)] *)

(** The value written to an indicator LED for a widget status. *)
Definition led_state (active : Z) : Z :=
  if negb (NO_BUTTON_TOUCH =? active) then CYBSP_LED_STATE_ON else CYBSP_LED_STATE_OFF.

Definition main_loop_body : M W unit :=
  busy <- call Cy_CapSense_IsBusy ;;
  when (negb (CY_CAPSENSE_BUSY =? retval busy))
    ((* Process all widgets *)
     call Cy_CapSense_ProcessAllWidgets ;;
     (* Turning Button0 ON/OFF based on button press *)
     active0 <- call (Cy_CapSense_IsWidgetActive CY_CAPSENSE_BUTTON0_WDGT_ID) ;;
     (if negb (NO_BUTTON_TOUCH =? retval active0)
      then call (Cy_GPIO_Write CYBSP_LED_BTN0_PORT CYBSP_LED_BTN0_NUM CYBSP_LED_STATE_ON)
      else call (Cy_GPIO_Write CYBSP_LED_BTN0_PORT CYBSP_LED_BTN0_NUM CYBSP_LED_STATE_OFF)) ;;
     (* Turning Button1 ON/OFF based on button press *)
     active1 <- call (Cy_CapSense_IsWidgetActive CY_CAPSENSE_BUTTON1_WDGT_ID) ;;
     (if negb (NO_BUTTON_TOUCH =? retval active1)
      then call (Cy_GPIO_Write CYBSP_LED_BTN1_PORT CYBSP_LED_BTN1_NUM CYBSP_LED_STATE_ON)
      else call (Cy_GPIO_Write CYBSP_LED_BTN1_PORT CYBSP_LED_BTN1_NUM CYBSP_LED_STATE_OFF)) ;;
     (* Establishes synchronized communication with the CapSense Tuner tool *)
     call Cy_CapSense_RunTuner ;;
     (* Measure the self capacitance of sensor electrode using BIST *)
     when CY_CAPSENSE_BIST_EN measure_sensor_cp ;;
     (* Start the next scan *)
     call Cy_CapSense_ScanAllWidgets ;;
     ret tt) ;;
  when DEBUG_PRINT
    (g <- get_globals ;;
     when (ENTER_LOOP g)
       (call (Cy_SCB_UART_PutString ("Entered for loop" ++ CR ++ LF)) ;;
        put_globals {| button_0_sensor_cp := button_0_sensor_cp g;
                       button_1_sensor_cp := button_1_sensor_cp g;
                       cp_0_status := cp_0_status g;
                       cp_1_status := cp_1_status g;
                       ENTER_LOOP := false |})).

(** ** [main]: the loop, observed for [n] iterations

    [for (;;)] has no exit; [main_loop n] is its first [n] iterations (fewer
    if the program halts), and [main n] is the start-up followed by them. *)
Fixpoint main_loop (n : nat) : M W unit :=
  match n with
  | O => ret tt
  | S k => main_loop_body ;; main_loop k
  end.

Definition main (n : nat) : M W unit :=
  main_startup ;; main_loop n.

End Program.

(** ** Reading the log of calls *)

Definition is_IsBusy (e : Event) : bool :=
  match api_of e with Cy_CapSense_IsBusy => true | _ => false end.
Definition is_Process (e : Event) : bool :=
  match api_of e with Cy_CapSense_ProcessAllWidgets => true | _ => false end.
Definition is_IsWidgetActive (e : Event) : bool :=
  match api_of e with Cy_CapSense_IsWidgetActive _ => true | _ => false end.
Definition is_GPIO_Write (e : Event) : bool :=
  match api_of e with Cy_GPIO_Write _ _ _ => true | _ => false end.
Definition is_RunTuner (e : Event) : bool :=
  match api_of e with Cy_CapSense_RunTuner => true | _ => false end.
Definition is_Measure (e : Event) : bool :=
  match api_of e with Cy_CapSense_MeasureCapacitanceSensor _ _ => true | _ => false end.
Definition is_Scan (e : Event) : bool :=
  match api_of e with Cy_CapSense_ScanAllWidgets => true | _ => false end.
Definition is_SetBuffer1 (e : Event) : bool :=
  match api_of e with Cy_SCB_EZI2C_SetBuffer1 _ _ _ => true | _ => false end.
Definition is_SysInt_Init (e : Event) : bool :=
  match api_of e with Cy_SysInt_Init _ _ => true | _ => false end.
Definition is_PutString (e : Event) : bool :=
  match api_of e with Cy_SCB_UART_PutString _ => true | _ => false end.

(** Number of logged calls satisfying [p]. *)
Definition count (p : Event -> bool) (l : list Event) : nat :=
  List.length (filter p l).

(** The three phases of a cycle that the log shows: widget processing, the
    tuner (telemetry) step and the start of a scan. *)
Inductive Phase : Type := Processing | Reporting | ScanStart.

Definition phase_of (e : Event) : list Phase :=
  match api_of e with
  | Cy_CapSense_ProcessAllWidgets => [Processing]
  | Cy_CapSense_RunTuner => [Reporting]
  | Cy_CapSense_ScanAllWidgets => [ScanStart]
  | _ => []
  end.

Definition phases (l : list Event) : list Phase := flat_map phase_of l.

Fixpoint cycles (k : nat) : list Phase :=
  match k with
  | O => []
  | S k' => Processing :: Reporting :: ScanStart :: cycles k'
  end.

Section Observations.

Context {W : Type} `{Platform W} `{Headers}.

(** What the busy check answers in state [s]. *)
Definition busy_answer (s : State W) : Z :=
  retval (fst (respond Cy_CapSense_IsBusy (world s))).

Definition observes_busy (s : State W) : bool :=
  CY_CAPSENSE_BUSY =? busy_answer s.

(** Number of iterations, among the first [n] from [s], whose busy check
    answered not-busy. *)
Fixpoint processed_cycles (n : nat) (s : State W) : nat :=
  match n with
  | O => O
  | S k =>
      ((if observes_busy s then 0 else 1)
       + processed_cycles k (st (main_loop_body s)))%nat
  end.

(** The start-up calls whose status [main] tests, with the value each is
    compared to. *)
Definition checked_against (a : Api) : option Z :=
  match a with
  | cybsp_init => Some CY_RSLT_SUCCESS
  | Cy_SCB_EZI2C_Init => Some CY_SCB_EZI2C_SUCCESS
  | Cy_SysInt_Init _ _ => Some CY_SYSINT_SUCCESS
  | Cy_CapSense_Init => Some CY_CAPSENSE_STATUS_SUCCESS
  | Cy_CapSense_Enable => Some CY_CAPSENSE_STATUS_SUCCESS
  | Cy_CapSense_ScanAllWidgets => Some CY_CAPSENSE_STATUS_SUCCESS
  | _ => None
  end.

Definition is_checked (e : Event) : bool :=
  match checked_against (api_of e) with Some _ => true | None => false end.

Definition failed (e : Event) : bool :=
  match checked_against (api_of e) with
  | Some success => negb (retval (resp_of e) =? success)
  | None => false
  end.

(** A status other than success returned by a CapSense call made inside the
    loop. *)
Definition runtime_failure (e : Event) : bool :=
  match api_of e with
  | Cy_CapSense_ProcessAllWidgets
  | Cy_CapSense_RunTuner
  | Cy_CapSense_ScanAllWidgets =>
      negb (retval (resp_of e) =? CY_CAPSENSE_STATUS_SUCCESS)
  | _ => false
  end.

(** "Every runtime failure inside the main cycle is fatal", for the iteration
    that starts in [s]: an event reporting such a failure is the last thing
    the iteration does, and the iteration ends halted. *)
Definition runtime_failure_is_fatal (s : State W) : Prop :=
  forall pre e post,
    evs (main_loop_body s) = pre ++ e :: post ->
    runtime_failure e = true ->
    res (main_loop_body s) = Halt /\ post = [].

(** A call that only the loop makes. *)
Definition is_loop_call (e : Event) : bool :=
  is_IsBusy e || is_Process e || is_IsWidgetActive e || is_GPIO_Write e
  || is_RunTuner e || is_Measure e.

(** The calls an iteration can make: a loop call, a scan start or a UART
    print. *)
Definition in_loop (e : Event) : bool :=
  is_loop_call e || is_Scan e || is_PutString e.

(** The start-up calls whose status is tested, in program order. *)
Definition startup_checked_calls : list Api :=
  [cybsp_init;
   Cy_SCB_EZI2C_Init;
   Cy_SysInt_Init ezi2c_intr_config ezi2c_isr;
   Cy_CapSense_Init;
   Cy_SysInt_Init capsense_interrupt_config capsense_isr;
   Cy_CapSense_Enable;
   Cy_CapSense_ScanAllWidgets].

(** In the log [l], the first checked call that failed is followed by
    nothing but UART prints. *)
Fixpoint stops_at_failure (l : list Event) : bool :=
  match l with
  | [] => true
  | e :: l' => if failed e then forallb is_PutString l' else stops_at_failure l'
  end.

(** Cortex-M NVIC convention, on which the comment "EZI2C interrupt priority
    must be higher than CapSense interrupt priority" of [main.c] relies: the
    numerically lower priority value is the more urgent one, and an interrupt
    preempts a handler of strictly lower urgency. *)
Definition higher_priority (a b : cy_stc_sysint_t) : Prop :=
  intrPriority a < intrPriority b.

End Observations.

(** ** The widget decision of the Signal Processor *)

Module SignalProcessor.

(** Modelled from the spec: the touch decision made inside
    [Cy_CapSense_ProcessAllWidgets], which is CapSense middleware code and not
    part of the repository ([main.c] only calls it).  The definitions follow
    section 4.2 of the specification: (b) the difference count is raw minus
    baseline clamped at zero; (c) a widget is switched on at or above its ON
    threshold, switched off at or below its OFF threshold, and keeps its
    state in between; and the edge-case policy: a sensor whose raw count is
    outside the device's measurement range is treated as inactive for that
    cycle.  The range is a property of the device and is a parameter.  The
    baseline tracking rule of step (a), which the specification leaves open,
    is not modelled: a sensor carries the baseline in force for the cycle. *)
Record Sensor : Type := {
  raw_count : Z;
  baseline : Z
}.

Record Widget : Type := {
  index : Z;
  on_threshold : Z;
  off_threshold : Z;
  active : bool
}.

(** The physical measurement range of the device. *)
Record Device : Type := {
  raw_min : Z;
  raw_max : Z
}.

Definition plausible (dev : Device) (sn : Sensor) : bool :=
  (raw_min dev <=? raw_count sn) && (raw_count sn <=? raw_max dev).

Definition difference_count (sn : Sensor) : Z :=
  Z.max 0 (raw_count sn - baseline sn).

Definition decide (w : Widget) (diff : Z) : bool :=
  if on_threshold w <=? diff then true
  else if diff <=? off_threshold w then false
  else active w.

Definition process_widget (dev : Device) (w : Widget) (sn : Sensor) : Widget :=
  {| index := index w;
     on_threshold := on_threshold w;
     off_threshold := off_threshold w;
     active := if plausible dev sn
               then decide w (difference_count sn)
               else false |}.

(** One processed cycle: every widget is decided from its sensor. *)
Definition process_all_widgets (dev : Device) (ws : list (Widget * Sensor))
  : list Widget :=
  map (fun p => process_widget dev (fst p) (snd p)) ws.

(** The states a widget goes through over successive cycles. *)
Fixpoint run_cycles (dev : Device) (w : Widget) (readings : list Sensor)
  : list bool :=
  match readings with
  | [] => []
  | sn :: rest =>
      active (process_widget dev w sn)
      :: run_cycles dev (process_widget dev w sn) rest
  end.

(** The configuration constraint of the specification: OFF below ON. *)
Definition well_configured (w : Widget) : Prop :=
  off_threshold w < on_threshold w.

(** The threshold rule with no exception, for one widget and one reading: a
    widget becomes active only at or above ON, becomes inactive only at or
    below OFF, and keeps its state strictly in between. *)
Definition thresholds_alone_decide (dev : Device) (w : Widget) (sn : Sensor) : Prop :=
  (active w = false -> active (process_widget dev w sn) = true ->
   on_threshold w <= difference_count sn)
  /\ (active w = true -> active (process_widget dev w sn) = false ->
      difference_count sn <= off_threshold w)
  /\ (off_threshold w < difference_count sn < on_threshold w ->
      active (process_widget dev w sn) = active w).

End SignalProcessor.

(** ** A simulated platform, to run the program on

    The world is the number of busy answers still to come for the scan in
    flight; a scan start sets it to [polls_per_scan].  Every other call is
    answered from a table.  The header values are those of a typical PMG1
    build; nothing below depends on them except the runs that use them. *)

Record Script : Type := {
  polls_per_scan : nat;
  answer : Api -> Resp
}.

Definition status (v : Z) : Resp := {| retval := v; ptrValue := None |}.

Definition sample_headers (bist debug : bool) : Headers :=
  {| CY_RSLT_SUCCESS := 0;
     CY_SCB_EZI2C_SUCCESS := 0;
     CY_SYSINT_SUCCESS := 0;
     CY_CAPSENSE_STATUS_SUCCESS := 0;
     CY_CAPSENSE_BUSY := 128;
     CYBSP_EZI2C_IRQ := 9;
     CYBSP_CSD_IRQ := 15;
     cy_capsense_tuner := 536871936;
     sizeof_cy_capsense_tuner := 124;
     CY_CAPSENSE_BUTTON0_WDGT_ID := 0;
     CY_CAPSENSE_BUTTON0_SNS0_ID := 0;
     CY_CAPSENSE_BUTTON1_WDGT_ID := 1;
     CY_CAPSENSE_BUTTON1_SNS0_ID := 0;
     CYBSP_LED_BTN0_PORT := 2;
     CYBSP_LED_BTN0_NUM := 0;
     CYBSP_LED_BTN1_PORT := 2;
     CYBSP_LED_BTN1_NUM := 1;
     CYBSP_LED_STATE_ON := 0;
     CYBSP_LED_STATE_OFF := 1;
     CY_CAPSENSE_BIST_EN := bist;
     DEBUG_PRINT := debug |}.

Definition simulated (sc : Script) : Platform nat :=
  {| respond := fun a w =>
       match a with
       | Cy_CapSense_IsBusy =>
           (status (match w with O => 0 | S _ => 128 end), Nat.pred w)
       | Cy_CapSense_ScanAllWidgets => (answer sc a, polls_per_scan sc)
       | _ => (answer sc a, w)
       end |}.

(** Everything succeeds, no button is touched. *)
Definition quiet : Script :=
  {| polls_per_scan := 1; answer := fun _ => status 0 |}.

(** Button 0 is touched; processing and the tuner step report a failure
    status; the first capacitance measurement fails and the second stores a
    value. *)
Definition troubled : Script :=
  {| polls_per_scan := 1;
     answer := fun a =>
       match a with
       | Cy_CapSense_ProcessAllWidgets => status 2
       | Cy_CapSense_RunTuner => status 1
       | Cy_CapSense_IsWidgetActive w => status (if w =? 0 then 1 else 0)
       | Cy_CapSense_MeasureCapacitanceSensor w _ =>
           if w =? 0 then status 7
           else {| retval := 0; ptrValue := Some 11500 |}
       | _ => status 0
       end |}.

(** The CapSense block cannot be initialised. *)
Definition no_capsense : Script :=
  {| polls_per_scan := 1;
     answer := fun a =>
       match a with
       | Cy_CapSense_Init => status 1
       | _ => status 0
       end |}.

Definition idle_state : State nat := {| world := 0%nat; globals := initial_globals |}.
Definition scanning_state : State nat := {| world := 2%nat; globals := initial_globals |}.

(** One iteration on the simulated platform with the self-test compiled in
    and debug printing off: from the idle state under the [troubled] script,
    and from the scanning state under the [quiet] script. *)
Definition troubled_cycle : Out nat unit :=
  @main_loop_body nat (simulated troubled) (sample_headers true false) idle_state.

Definition busy_cycle : Out nat unit :=
  @main_loop_body nat (simulated quiet) (sample_headers true false) scanning_state.

(** A button with ON threshold 50 and OFF threshold 20, not touched so far,
    and a reading of 151 over a baseline of 100. *)
Definition sample_widget : SignalProcessor.Widget :=
  {| SignalProcessor.index := 0;
     SignalProcessor.on_threshold := 50;
     SignalProcessor.off_threshold := 20;
     SignalProcessor.active := false |}.

Definition sample_sensor : SignalProcessor.Sensor :=
  {| SignalProcessor.raw_count := 151; SignalProcessor.baseline := 100 |}.

(** A device with 16-bit raw counts; the same button while touched; and a
    reading above the range whose difference count, 35, lies strictly
    between the two thresholds. *)
Definition sample_device : SignalProcessor.Device :=
  {| SignalProcessor.raw_min := 0; SignalProcessor.raw_max := 65535 |}.

Definition touched_widget : SignalProcessor.Widget :=
  {| SignalProcessor.index := 0;
     SignalProcessor.on_threshold := 50;
     SignalProcessor.off_threshold := 20;
     SignalProcessor.active := true |}.

Definition out_of_range_sensor : SignalProcessor.Sensor :=
  {| SignalProcessor.raw_count := 65540; SignalProcessor.baseline := 65505 |}.

(** ** Further readings of the log *)

Definition is_UART_Init (e : Event) : bool :=
  match api_of e with Cy_SCB_UART_Init => true | _ => false end.
Definition is_UART_Enable (e : Event) : bool :=
  match api_of e with Cy_SCB_UART_Enable => true | _ => false end.
Definition is_EZI2C_Init (e : Event) : bool :=
  match api_of e with Cy_SCB_EZI2C_Init => true | _ => false end.
Definition is_EZI2C_Enable (e : Event) : bool :=
  match api_of e with Cy_SCB_EZI2C_Enable => true | _ => false end.
Definition is_CapSense_Init (e : Event) : bool :=
  match api_of e with Cy_CapSense_Init => true | _ => false end.
Definition is_CapSense_Enable (e : Event) : bool :=
  match api_of e with Cy_CapSense_Enable => true | _ => false end.

(** [Cy_SysInt_Init] called with the service routine [i]. *)
Definition installs (i : Isr) (e : Event) : bool :=
  match api_of e, i with
  | Cy_SysInt_Init _ capsense_isr, capsense_isr => true
  | Cy_SysInt_Init _ ezi2c_isr, ezi2c_isr => true
  | _, _ => false
  end.

(** [NVIC_ClearPendingIRQ] called for the interrupt [irq]. *)
Definition clears_pending (irq : Z) (e : Event) : bool :=
  match api_of e with NVIC_ClearPendingIRQ i => i =? irq | _ => false end.

(** [NVIC_EnableIRQ] called for the interrupt [irq]. *)
Definition enables_irq (irq : Z) (e : Event) : bool :=
  match api_of e with NVIC_EnableIRQ i => i =? irq | _ => false end.

(** A UART call. *)
Definition is_UART (e : Event) : bool :=
  is_UART_Init e || is_UART_Enable e || is_PutString e.

(** In the log [l], every call satisfying [q] has a call satisfying [p]
    somewhere before it ([seen]: one was made before [l] begins). *)
Fixpoint guarded (p q : Event -> bool) (seen : bool) (l : list Event) : bool :=
  match l with
  | [] => true
  | e :: l' => (negb (q e) || seen) && guarded p q (seen || p e) l'
  end.

(** The first call of the log that failed, with what follows it. *)
Section FailureReport.

Context `{Headers}.

Fixpoint after_failure (l : list Event) : option (Event * list Event) :=
  match l with
  | [] => None
  | e :: l' => if failed e then Some (e, l') else after_failure l'
  end.

(** A call of kind [k] that returned its success value. *)
Definition succeeded (k : Event -> bool) (e : Event) : bool :=
  k e && negb (failed e).

(** The message passed to [check_status] for a failed start-up call; the
    test of [cybsp_init] has no [check_status]. *)
Definition failure_message (a : Api) : option string :=
  match a with
  | Cy_SCB_EZI2C_Init => Some "API Cy_SCB_EZI2C_Init failed with error code"%string
  | Cy_SysInt_Init _ _ => Some "API Cy_SysInt_Init failed with error code"%string
  | Cy_CapSense_Init => Some "API Cy_CapSense_Init failed with error code"%string
  | Cy_CapSense_Enable => Some "API Cy_CapSense_Enable failed with error code"%string
  | Cy_CapSense_ScanAllWidgets =>
      Some "API Cy_CapSense_ScanAllWidgets failed with error code"%string
  | _ => None
  end.

(** The UART calls that report the failure of call [a] with [status]. *)
Definition failure_report (a : Api) (status : Z) : list Api :=
  match failure_message a with
  | Some msg =>
      if DEBUG_PRINT
      then map Cy_SCB_UART_PutString
             [banner; (LF ++ "FAIL: ")%string; msg; (CR ++ LF)%string;
              error_msg status; banner]
      else []
  | None => []
  end.

(** A call that drives an indicator LED to ON or OFF, or reads the status of
    one of the two buttons; any call that is neither a GPIO write nor a
    widget status read passes. *)
Definition well_targeted (e : Event) : bool :=
  match api_of e with
  | Cy_GPIO_Write port pin v =>
      ((port =? CYBSP_LED_BTN0_PORT) && (pin =? CYBSP_LED_BTN0_NUM)
       || (port =? CYBSP_LED_BTN1_PORT) && (pin =? CYBSP_LED_BTN1_NUM))
      && ((v =? CYBSP_LED_STATE_ON) || (v =? CYBSP_LED_STATE_OFF))
  | Cy_CapSense_IsWidgetActive w =>
      (w =? CY_CAPSENSE_BUTTON0_WDGT_ID) || (w =? CY_CAPSENSE_BUTTON1_WDGT_ID)
  | _ => true
  end.

End FailureReport.

(** ** Reading the error code back *)

(** The value of a hexadecimal digit character, upper case as [PRIX32]
    prints it. *)
Definition hex_value (c : ascii) : Z :=
  let n := Z.of_nat (nat_of_ascii c) in
  if n <? 58 then n - 48 else n - 55.

Definition is_hex_digit (c : ascii) : bool :=
  let n := Z.of_nat (nat_of_ascii c) in
  ((48 <=? n) && (n <=? 57)) || ((65 <=? n) && (n <=? 70)).

(** The number a string of hexadecimal digits denotes, most significant
    digit first, continuing from [acc]. *)
Fixpoint hex_decode (s : string) (acc : Z) : Z :=
  match s with
  | EmptyString => acc
  | String c s' => hex_decode s' (16 * acc + hex_value c)
  end.

Fixpoint all_chars (p : ascii -> bool) (s : string) : bool :=
  match s with
  | EmptyString => true
  | String c s' => p c && all_chars p s'
  end.

(** Runs on the simulated platform: three iterations after a clean start-up
    with the self-test compiled in; two iterations with debug printing on;
    a start-up in which [Cy_CapSense_Init] fails, with debug printing on. *)
Definition quiet_run : Out nat unit :=
  @main nat (simulated quiet) (sample_headers true false) 3 idle_state.

Definition quiet_startup : Out nat unit :=
  @main_startup nat (simulated quiet) (sample_headers true false) idle_state.

Definition debug_run : Out nat unit :=
  @main nat (simulated quiet) (sample_headers false true) 2 idle_state.

Definition failed_startup : Out nat unit :=
  @main_startup nat (simulated no_capsense) (sample_headers false true) idle_state.

(** * Proofs *)

(** ** Lists of events *)

Lemma count_app (p : Event -> bool) (l1 l2 : list Event) :
  count p (l1 ++ l2) = (count p l1 + count p l2)%nat.
Proof.
  unfold count. rewrite filter_app. apply length_app.
Qed.

Lemma count_none (p : Event -> bool) (l : list Event) :
  existsb p l = false -> count p l = O.
Proof.
  unfold count. induction l as [|x l IH]; simpl; [reflexivity|].
  destruct (p x); simpl; [discriminate|exact IH].
Qed.

Lemma phases_app (l1 l2 : list Event) :
  phases (l1 ++ l2) = phases l1 ++ phases l2.
Proof.
  unfold phases. apply flat_map_app.
Qed.

(** An event satisfying [p] that sits in a list with a single such event is
    that event, at that place. *)
Lemma unique_position (p : Event -> bool) (l1 l2 pre post : list Event) (x e : Event) :
  existsb p l1 = false ->
  p x = true ->
  existsb p l2 = false ->
  l1 ++ x :: l2 = pre ++ e :: post ->
  p e = true ->
  pre = l1 /\ e = x /\ post = l2.
Proof.
  revert pre. induction l1 as [|y l1 IH]; intros pre H1 Hx H2 Heq He.
  - destruct pre as [|z pre]; simpl in Heq.
    + injection Heq as -> ->. auto.
    + injection Heq as -> ->.
      rewrite existsb_app in H2. simpl in H2. rewrite He in H2.
      rewrite orb_true_r in H2. discriminate.
  - simpl in H1. apply orb_false_iff in H1 as [Hy H1].
    destruct pre as [|z pre]; simpl in Heq.
    + injection Heq as <- _. congruence.
    + injection Heq as <- Heq.
      destruct (IH pre H1 Hx H2 Heq He) as (-> & -> & ->). auto.
Qed.

(** If no event of a list satisfies [p], no decomposition of the list
    exhibits one. *)
Lemma absent_position (p : Event -> bool) (l pre post : list Event) (e : Event) :
  existsb p l = false -> l = pre ++ e :: post -> p e = true -> False.
Proof.
  intros Hl -> He. rewrite existsb_app in Hl. simpl in Hl.
  rewrite He, orb_true_r in Hl. discriminate.
Qed.

Lemma forallb_excludes (p q : Event -> bool) (l : list Event) :
  (forall e, p e = true -> q e = false) ->
  forallb p l = true -> existsb q l = false.
Proof.
  intros Hpq. induction l as [|x l IH]; simpl; [reflexivity|].
  intros Hl. apply andb_true_iff in Hl as [Hx Hl].
  rewrite (Hpq x Hx), (IH Hl). reflexivity.
Qed.

(** ** The monad *)

Section MonadFacts.

Context {W : Type}.

Lemma bind_ok {A B} (m : M W A) (k : A -> M W B) (s : State W) (a : A) :
  res (m s) = Ok a ->
  bind m k s = {| res := res (k a (st (m s)));
                  st := st (k a (st (m s)));
                  evs := evs (m s) ++ evs (k a (st (m s))) |}.
Proof.
  unfold bind. destruct (m s) as [r s1 e1]. simpl. intros ->.
  destruct (k a s1); reflexivity.
Qed.

Lemma bind_halt {A B} (m : M W A) (k : A -> M W B) (s : State W) :
  res (m s) = Halt ->
  bind m k s = {| res := Halt; st := st (m s); evs := evs (m s) |}.
Proof.
  unfold bind. destruct (m s) as [r s1 e1]. simpl. intros ->. reflexivity.
Qed.

End MonadFacts.

(** ** Calls made in order *)

Lemma guarded_seen (p q : Event -> bool) (l : list Event) :
  guarded p q true l = true.
Proof.
  induction l as [|e l IH]; simpl; [reflexivity|].
  rewrite orb_true_r. exact IH.
Qed.

Lemma guarded_none (p q : Event -> bool) (seen : bool) (l : list Event) :
  existsb q l = false -> guarded p q seen l = true.
Proof.
  revert seen. induction l as [|e l IH]; intros seen; simpl; [reflexivity|].
  intros Hq. apply orb_false_iff in Hq as [-> Hq]. simpl. apply IH, Hq.
Qed.

Lemma guarded_app (p q : Event -> bool) (seen : bool) (l1 l2 : list Event) :
  guarded p q seen (l1 ++ l2)
  = guarded p q seen l1 && guarded p q (seen || existsb p l1) l2.
Proof.
  revert seen. induction l1 as [|e l1 IH]; intros seen; simpl.
  - now rewrite orb_false_r.
  - rewrite IH, orb_assoc, andb_assoc. reflexivity.
Qed.

Lemma guarded_spec (p q : Event -> bool) (l pre post : list Event) (e : Event) :
  guarded p q false l = true ->
  l = pre ++ e :: post ->
  q e = true ->
  existsb p pre = true.
Proof.
  intros Hg -> Hq. rewrite guarded_app in Hg.
  apply andb_true_iff in Hg as [_ Hg]. simpl in Hg. rewrite Hq in Hg.
  simpl in Hg. apply andb_true_iff in Hg as [Hg _]. exact Hg.
Qed.

(** ** The error code text of [check_status] *)

Lemma string_length_app (s1 s2 : string) :
  String.length (s1 ++ s2) = (String.length s1 + String.length s2)%nat.
Proof.
  induction s1 as [|c s1 IH]; simpl; [reflexivity|]. now rewrite IH.
Qed.

Lemma hex_digits_length (n : nat) (v : Z) (acc : string) :
  String.length (hex_digits n v acc) = (n + String.length acc)%nat.
Proof.
  revert v acc. induction n as [|n IH]; intros v acc; simpl; [reflexivity|].
  rewrite IH. simpl. lia.
Qed.

Lemma hex_digit_cases (d : Z) :
  0 <= d < 16 ->
  hex_value (hex_digit d) = d /\ is_hex_digit (hex_digit d) = true.
Proof.
  intros Hd.
  assert (Hc : d = 0 \/ d = 1 \/ d = 2 \/ d = 3 \/ d = 4 \/ d = 5 \/ d = 6 \/ d = 7
               \/ d = 8 \/ d = 9 \/ d = 10 \/ d = 11 \/ d = 12 \/ d = 13
               \/ d = 14 \/ d = 15) by lia.
  repeat (destruct Hc as [->|Hc]; [split; reflexivity|]).
  subst d. split; reflexivity.
Qed.

Lemma low_digit (v : Z) : 0 <= Z.land v 15 < 16 /\ Z.land v 15 = v mod 16.
Proof.
  change 15 with (Z.ones 4). rewrite Z.land_ones by lia.
  change (2 ^ 4) with 16. split; [apply Z.mod_pos_bound; lia|reflexivity].
Qed.

Lemma hex_decode_app (s1 s2 : string) (a : Z) :
  hex_decode (s1 ++ s2) a = hex_decode s2 (hex_decode s1 a).
Proof.
  revert a. induction s1 as [|c s1 IH]; intros a; simpl; [reflexivity|]. apply IH.
Qed.

Lemma hex_decode_digits (n : nat) (v a : Z) (acc : string) :
  hex_decode (hex_digits n v acc) a
  = hex_decode acc (a * 16 ^ Z.of_nat n + v mod 16 ^ Z.of_nat n).
Proof.
  revert v a acc. induction n as [|n IH]; intros v a acc.
  - simpl. rewrite Z.mod_1_r. f_equal. lia.
  - cbn [hex_digits]. rewrite IH. cbn [hex_decode].
    destruct (low_digit v) as [Hr Hm].
    rewrite (proj1 (hex_digit_cases _ Hr)), Hm.
    f_equal. rewrite Z.shiftr_div_pow2 by lia. change (2 ^ 4) with 16.
    rewrite Nat2Z.inj_succ, Z.pow_succ_r by lia.
    rewrite (Z.rem_mul_r v 16 (16 ^ Z.of_nat n)) by lia. lia.
Qed.

Lemma hex_digits_chars (n : nat) (v : Z) (acc : string) :
  all_chars is_hex_digit acc = true ->
  all_chars is_hex_digit (hex_digits n v acc) = true.
Proof.
  revert v acc. induction n as [|n IH]; intros v acc Hacc; simpl; [exact Hacc|].
  apply IH. simpl. rewrite Hacc.
  rewrite (proj2 (hex_digit_cases _ (proj1 (low_digit v)))). reflexivity.
Qed.

(** X1: the text [check_status] formats with [sprintf] is 23 characters long
    for every status, so with its terminating zero it always fits the
    64-byte buffer [error_msg]. *)
Theorem X1_error_msg_fits_buffer (status : Z) :
  String.length (error_msg status) = 23%nat
  /\ (String.length (error_msg status) + 1 <= 64)%nat.
Proof.
  assert (H : String.length (error_msg status) = 23%nat).
  { unfold error_msg. rewrite !string_length_app, hex_digits_length. reflexivity. }
  rewrite H. split; [reflexivity|lia].
Qed.

(** X2: the formatted text is "Error Code: 0x", eight upper-case hexadecimal
    digits and a line feed, and the digits read back as the status taken as
    a 32-bit unsigned value. *)
Theorem X2_error_msg_reads_back (status : Z) :
  exists digits,
    error_msg status = ("Error Code: 0x" ++ digits ++ LF)%string
    /\ String.length digits = 8%nat
    /\ all_chars is_hex_digit digits = true
    /\ hex_decode digits 0 = status mod 2 ^ 32.
Proof.
  exists (hex_digits 8 (status mod 2 ^ 32) EmptyString).
  split; [reflexivity|]. split; [apply hex_digits_length|].
  split; [apply hex_digits_chars; reflexivity|].
  rewrite hex_decode_digits. cbn [hex_decode].
  change (16 ^ Z.of_nat 8) with (2 ^ 32). rewrite Z.mod_mod by lia. lia.
Qed.

Section LoopFacts.

Context {W : Type} `{Platform W} `{Headers}.

(** ** One iteration, executed symbolically *)

Lemma body_when_busy (s : State W) :
  observes_busy s = true ->
  res (main_loop_body s) = Ok tt
  /\ exists dbg,
      evs (main_loop_body s)
        = Called Cy_CapSense_IsBusy (fst (respond Cy_CapSense_IsBusy (world s))) :: dbg
      /\ forallb is_PutString dbg = true
      /\ (DEBUG_PRINT = false ->
          dbg = []
          /\ st (main_loop_body s)
             = {| world := snd (respond Cy_CapSense_IsBusy (world s));
                  globals := globals s |}).
Proof.
  unfold observes_busy, busy_answer. intros Hb.
  unfold main_loop_body, bind, call, when. cbn. rewrite Hb. cbn.
  destruct DEBUG_PRINT; cbn.
  - destruct (ENTER_LOOP (globals s)); cbn.
    + split; [reflexivity|]. eexists. split; [reflexivity|]. split; [reflexivity|].
      discriminate.
    + split; [reflexivity|]. exists []. split; [reflexivity|]. split; [reflexivity|].
      discriminate.
  - split; [reflexivity|]. exists []. split; [reflexivity|]. split; [reflexivity|].
    intros _. split; reflexivity.
Qed.

Lemma body_when_idle (s : State W) :
  observes_busy s = false ->
  res (main_loop_body s) = Ok tt
  /\ exists rp a0 g0 a1 g1 rt bist rs dbg,
      evs (main_loop_body s)
        = Called Cy_CapSense_IsBusy (fst (respond Cy_CapSense_IsBusy (world s)))
          :: Called Cy_CapSense_ProcessAllWidgets rp
          :: Called (Cy_CapSense_IsWidgetActive CY_CAPSENSE_BUTTON0_WDGT_ID) a0
          :: Called (Cy_GPIO_Write CYBSP_LED_BTN0_PORT CYBSP_LED_BTN0_NUM
                       (led_state (retval a0))) g0
          :: Called (Cy_CapSense_IsWidgetActive CY_CAPSENSE_BUTTON1_WDGT_ID) a1
          :: Called (Cy_GPIO_Write CYBSP_LED_BTN1_PORT CYBSP_LED_BTN1_NUM
                       (led_state (retval a1))) g1
          :: Called Cy_CapSense_RunTuner rt
          :: bist ++ Called Cy_CapSense_ScanAllWidgets rs :: dbg
      /\ forallb is_PutString dbg = true
      /\ forallb is_Measure bist = true
      /\ (CY_CAPSENSE_BIST_EN = false -> bist = [])
      /\ (CY_CAPSENSE_BIST_EN = true ->
          exists m0 m1,
            bist = [Called (Cy_CapSense_MeasureCapacitanceSensor
                              CY_CAPSENSE_BUTTON0_WDGT_ID CY_CAPSENSE_BUTTON0_SNS0_ID) m0;
                    Called (Cy_CapSense_MeasureCapacitanceSensor
                              CY_CAPSENSE_BUTTON1_WDGT_ID CY_CAPSENSE_BUTTON1_SNS0_ID) m1]
            /\ cp_0_status (globals (st (main_loop_body s))) = retval m0
            /\ cp_1_status (globals (st (main_loop_body s))) = retval m1
            /\ button_0_sensor_cp (globals (st (main_loop_body s)))
               = stored (ptrValue m0) (button_0_sensor_cp (globals s))
            /\ button_1_sensor_cp (globals (st (main_loop_body s)))
               = stored (ptrValue m1) (button_1_sensor_cp (globals s))).
Proof.
  unfold observes_busy, busy_answer. intros Hb.
  unfold main_loop_body, bind, call, when, led_state. cbn. rewrite Hb. cbn.
  repeat match goal with
         | |- context [if ?c then _ else _] => destruct c eqn:?; cbn
         end.
  all: split; [reflexivity|].
  all: do 6 eexists.
  all: match goal with
       | E : CY_CAPSENSE_BIST_EN = true |- _ => eexists (cons _ (cons _ nil))
       | E : CY_CAPSENSE_BIST_EN = false |- _ => exists []
       end.
  all: do 2 eexists.
  all: split;
    [cbn; repeat f_equal; try reflexivity;
     repeat match goal with
            | E : ?c = _ |- context [if ?c then _ else _] => rewrite E
            end; reflexivity|].
  all: split; [reflexivity|].
  all: split; [reflexivity|].
  all: split; [intros; first [congruence | reflexivity]|].
  all: intros; try congruence.
  all: do 2 eexists; repeat split; reflexivity.
Qed.

Lemma body_never_halts (s : State W) : res (main_loop_body s) = Ok tt.
Proof.
  destruct (observes_busy s) eqn:E.
  - apply (body_when_busy s E).
  - apply (body_when_idle s E).
Qed.

(** ** The loop *)

Lemma main_loop_step (n : nat) (s : State W) :
  main_loop (S n) s
  = {| res := res (main_loop n (st (main_loop_body s)));
       st := st (main_loop n (st (main_loop_body s)));
       evs := evs (main_loop_body s) ++ evs (main_loop n (st (main_loop_body s))) |}.
Proof.
  exact (bind_ok main_loop_body (fun _ => main_loop n) s tt (body_never_halts s)).
Qed.

Lemma main_loop_never_halts (n : nat) (s : State W) : res (main_loop n s) = Ok tt.
Proof.
  revert s. induction n as [|n IH]; intros s; [reflexivity|].
  rewrite main_loop_step. simpl. apply IH.
Qed.

Lemma body_calls (s : State W) :
  forallb in_loop (evs (main_loop_body s)) = true.
Proof.
  assert (Hp : forall l, forallb is_PutString l = true -> forallb in_loop l = true).
  { induction l as [|[a r] l IH]; simpl; [reflexivity|].
    intros Hl. apply andb_true_iff in Hl as [Ha Hl].
    destruct a; try discriminate. rewrite (IH Hl). reflexivity. }
  assert (Hm : forall l, forallb is_Measure l = true -> forallb in_loop l = true).
  { induction l as [|[a r] l IH]; simpl; [reflexivity|].
    intros Hl. apply andb_true_iff in Hl as [Ha Hl].
    destruct a; try discriminate. rewrite (IH Hl). reflexivity. }
  destruct (observes_busy s) eqn:E.
  - destruct (body_when_busy s E) as (_ & dbg & -> & Hd & _).
    simpl. apply Hp, Hd.
  - destruct (body_when_idle s E)
      as (_ & rp & a0 & g0 & a1 & g1 & rt & bist & rs & dbg & -> & Hd & Hb & _).
    cbn. rewrite forallb_app. cbn. rewrite (Hm _ Hb), (Hp _ Hd). reflexivity.
Qed.

Lemma loop_calls (n : nat) (s : State W) :
  forallb in_loop (evs (main_loop n s)) = true.
Proof.
  revert s. induction n as [|n IH]; intros s; [reflexivity|].
  rewrite main_loop_step. simpl. rewrite forallb_app, body_calls, IH.
  reflexivity.
Qed.

Lemma body_phases (s : State W) :
  phases (evs (main_loop_body s))
  = if observes_busy s then [] else [Processing; Reporting; ScanStart].
Proof.
  assert (Hp : forall p l,
             (forall e, p e = true -> phase_of e = []) ->
             forallb p l = true -> phases l = []).
  { intros p l Hpe. induction l as [|e l IH]; simpl; [reflexivity|].
    intros Hl. apply andb_true_iff in Hl as [Ha Hl].
    rewrite (Hpe e Ha). apply IH, Hl. }
  assert (H1 : forall e, is_PutString e = true -> phase_of e = []).
  { intros [[] r]; cbv; congruence. }
  assert (H2 : forall e, is_Measure e = true -> phase_of e = []).
  { intros [[] r]; cbv; congruence. }
  destruct (observes_busy s) eqn:E.
  - destruct (body_when_busy s E) as (_ & dbg & -> & Hd & _).
    change (phases (?x :: dbg)) with (phases dbg). apply (Hp _ _ H1 Hd).
  - destruct (body_when_idle s E)
      as (_ & rp & a0 & g0 & a1 & g1 & rt & bist & rs & dbg & -> & Hd & Hb & _).
    cbn. f_equal. f_equal. rewrite flat_map_app. cbn.
    fold (phases dbg). fold (phases bist).
    rewrite (Hp _ _ H1 Hd), (Hp _ _ H2 Hb). reflexivity.
Qed.

(** ** The program *)

Lemma main_after_startup (n : nat) (s : State W) :
  res (main_startup s) = Ok tt ->
  main n s
  = {| res := Ok tt;
       st := st (main_loop n (st (main_startup s)));
       evs := evs (main_startup s) ++ evs (main_loop n (st (main_startup s))) |}.
Proof.
  intros E. unfold main. rewrite (bind_ok _ _ _ tt E).
  rewrite main_loop_never_halts. reflexivity.
Qed.

Lemma main_halted (n : nat) (s : State W) :
  res (main_startup s) = Halt ->
  main n s
  = {| res := Halt; st := st (main_startup s); evs := evs (main_startup s) |}.
Proof.
  intros E. unfold main. apply bind_halt, E.
Qed.

Lemma PutString_not_failed (e : Event) : is_PutString e = true -> failed e = false.
Proof.
  destruct e as [[] r]; cbn; congruence.
Qed.

Lemma stops_at_failure_spec (l pre post : list Event) (e : Event) :
  stops_at_failure l = true ->
  l = pre ++ e :: post ->
  failed e = true ->
  forallb is_PutString post = true.
Proof.
  revert l. induction pre as [|z pre IH]; intros l Hl -> He; simpl in Hl.
  - rewrite He in Hl. exact Hl.
  - destruct (failed z).
    + rewrite forallb_app in Hl. simpl in Hl.
      apply andb_true_iff in Hl as [_ Hl]. apply andb_true_iff in Hl as [Hl _].
      rewrite (PutString_not_failed e Hl) in He. discriminate.
    + apply (IH _ Hl eq_refl He).
Qed.

(** ** The start-up sequence, executed symbolically *)

Ltac use_tests :=
  repeat match goal with
         | E : ?c = true |- context [?c] => rewrite E; cbn
         | E : ?c = false |- context [?c] => rewrite E; cbn
         end.

Ltac run_startup s o :=
  let Ho := fresh "Ho" in
  remember (main_startup s) as o eqn:Ho;
  unfold main_startup, halt_unless, check_status, bind, call, when, CY_ASSERT, ret in Ho;
  cbn in Ho;
  repeat (match type of Ho with
          | context [if ?c then _ else _] => destruct c eqn:?
          end; cbn in Ho);
  subst o; cbn; use_tests.

Lemma startup_checks (s : State W) :
  stops_at_failure (evs (main_startup s)) = true
  /\ existsb is_loop_call (evs (main_startup s)) = false
  /\ (exists rest,
        map api_of (filter is_checked (evs (main_startup s))) ++ rest
        = startup_checked_calls)
  /\ (res (main_startup s) = Ok tt
        /\ existsb failed (evs (main_startup s)) = false
        /\ map api_of (filter is_checked (evs (main_startup s)))
           = startup_checked_calls
      \/ res (main_startup s) = Halt
        /\ existsb failed (evs (main_startup s)) = true).
Proof.
  run_startup s o.
  all: split; [reflexivity|]; split; [reflexivity|].
  all: split; [eexists; reflexivity|].
  all: first [left; repeat split; reflexivity | right; split; reflexivity].
Qed.

(** ** One iteration of the loop *)

Ltac absent :=
  cbn; rewrite ?existsb_app; cbn;
  repeat match goal with
         | Hf : forallb ?q ?l = true |- context [existsb ?p ?l] =>
             rewrite (forallb_excludes q p l
                        ltac:(intros [[] ?]; cbv; congruence) Hf); cbn
         end;
  try reflexivity.

(** C1: in every iteration of the loop the busy check is the first call and
    the only status check; the iteration always comes to an end; when the
    check answers busy no widget processing is done; and whenever widget
    processing is done, it is the call that immediately follows a busy check
    that answered not-busy. *)
Theorem C1_processing_only_after_idle_check (s : State W) :
  exists rb rest,
    evs (main_loop_body s) = Called Cy_CapSense_IsBusy rb :: rest
    /\ rb = fst (respond Cy_CapSense_IsBusy (world s))
    /\ existsb is_IsBusy rest = false
    /\ res (main_loop_body s) = Ok tt
    /\ (retval rb = CY_CAPSENSE_BUSY -> existsb is_Process rest = false)
    /\ (forall pre e post,
          evs (main_loop_body s) = pre ++ e :: post ->
          is_Process e = true ->
          pre = [Called Cy_CapSense_IsBusy rb]
          /\ retval rb <> CY_CAPSENSE_BUSY).
Proof.
  destruct (observes_busy s) eqn:E.
  - destruct (body_when_busy s E) as (Hr & dbg & He & Hd & _).
    exists (fst (respond Cy_CapSense_IsBusy (world s))), dbg.
    split; [exact He|]. split; [reflexivity|].
    split; [absent|]. split; [exact Hr|].
    split; [intros _; absent|].
    intros pre e post Hev Hp. exfalso. rewrite He in Hev.
    refine (absent_position is_Process _ _ _ _ _ Hev Hp). absent.
  - destruct (body_when_idle s E)
      as (Hr & rp & a0 & g0 & a1 & g1 & rt & bist & rs & dbg & He & Hd & Hb & _).
    eexists; eexists. split; [exact He|].
    assert (Hnb : retval (fst (respond Cy_CapSense_IsBusy (world s)))
                  <> CY_CAPSENSE_BUSY).
    { unfold observes_busy, busy_answer in E. apply Z.eqb_neq in E. congruence. }
    split; [reflexivity|].
    split; [absent|]. split; [exact Hr|].
    split; [intros Hbusy; contradiction|].
    intros pre e post Hev Hp. split; [|exact Hnb]. rewrite He in Hev.
    change (Called Cy_CapSense_IsBusy ?r :: ?x :: ?l)
      with ([Called Cy_CapSense_IsBusy r] ++ x :: l) in Hev.
    refine (proj1 (unique_position is_Process _ _ _ _ _ _ _ _ _ Hev Hp));
      [reflexivity|reflexivity|absent].
Qed.

(** C10: with debug printing disabled, an iteration whose busy check answers
    busy is that check and nothing else: the single logged call is the check,
    the global variables are unchanged, the world has moved by the check
    only, and no processing, LED write, tuner step, capacitance measurement
    or scan start is made. *)
Theorem C10_busy_iteration_changes_nothing (s : State W) :
  DEBUG_PRINT = false ->
  observes_busy s = true ->
  main_loop_body s
  = {| res := Ok tt;
       st := {| world := snd (respond Cy_CapSense_IsBusy (world s));
                globals := globals s |};
       evs := [Called Cy_CapSense_IsBusy (fst (respond Cy_CapSense_IsBusy (world s)))] |}
  /\ existsb (fun e => is_Process e || is_GPIO_Write e || is_RunTuner e
                       || is_Measure e || is_Scan e)
             (evs (main_loop_body s)) = false.
Proof.
  intros Hd Hb.
  destruct (body_when_busy s Hb) as (Hr & dbg & He & _ & Hst).
  destruct (Hst Hd) as [-> Hs].
  assert (Hout : main_loop_body s
                 = {| res := Ok tt;
                      st := {| world := snd (respond Cy_CapSense_IsBusy (world s));
                               globals := globals s |};
                      evs := [Called Cy_CapSense_IsBusy
                                (fst (respond Cy_CapSense_IsBusy (world s)))] |}).
  { destruct (main_loop_body s) as [r s' e']. simpl in *. congruence. }
  split; [exact Hout|]. rewrite Hout. reflexivity.
Qed.


(** C4, as the program has it: inside the loop the status returned by
    widget processing and by the tuner step is not looked at.  Whatever they
    return, the iteration goes on: a processing call is followed by the two
    LED writes and the tuner step, and both are followed by the request for
    the next scan. *)
Theorem C4_runtime_status_is_discarded
    (s : State W) (pre post : list Event) (e : Event) :
  evs (main_loop_body s) = pre ++ e :: post ->
  is_Process e = true \/ is_RunTuner e = true ->
  existsb is_Scan post = true
  /\ (is_Process e = true ->
      count is_GPIO_Write post = 2%nat /\ existsb is_RunTuner post = true).
Proof.
  intros Hev Hk.
  assert (Hscan : forall l1 r l2, existsb is_Scan (l1 ++ Called Cy_CapSense_ScanAllWidgets r :: l2) = true).
  { intros. rewrite existsb_app. cbn. apply orb_true_r. }
  destruct (observes_busy s) eqn:E.
  - destruct (body_when_busy s E) as (_ & dbg & He & Hd & _).
    rewrite He in Hev. exfalso. destruct Hk as [Hk|Hk].
    + refine (absent_position is_Process _ _ _ _ _ Hev Hk). absent.
    + refine (absent_position is_RunTuner _ _ _ _ _ Hev Hk). absent.
  - destruct (body_when_idle s E)
      as (_ & rp & a0 & g0 & a1 & g1 & rt & bist & rs & dbg & He & Hd & Hb & _).
    rewrite He in Hev. destruct Hk as [Hk|Hk].
    + change (Called Cy_CapSense_IsBusy ?r :: ?x :: ?l)
        with ([Called Cy_CapSense_IsBusy r] ++ x :: l) in Hev.
      apply (unique_position is_Process) in Hev as (_ & _ & ->);
        [|reflexivity|reflexivity|absent|exact Hk].
      split; [|intros _; split].
      * cbn. apply Hscan.
      * match goal with
        | |- count ?p (?e1 :: ?e2 :: ?e3 :: ?e4 :: ?e5 :: bist ++ ?x :: dbg) = _ =>
            transitivity (count p [e1; e2; e3; e4; e5]
                          + (count p bist + (count p [x] + count p dbg)))%nat;
              [rewrite <- !count_app; reflexivity|]
        end.
        rewrite (count_none is_GPIO_Write bist), (count_none is_GPIO_Write dbg);
          [reflexivity|absent|absent].
      * reflexivity.
    + change (?e1 :: ?e2 :: ?e3 :: ?e4 :: ?e5 :: ?e6 :: ?x :: ?l)
        with ([e1; e2; e3; e4; e5; e6] ++ x :: l) in Hev.
      apply (unique_position is_RunTuner) in Hev as (_ & -> & ->);
        [|reflexivity|reflexivity|absent|exact Hk].
      split; [apply Hscan|]. discriminate.
Qed.

Lemma loop_phases (n : nat) (s : State W) :
  phases (evs (main_loop n s)) = cycles (processed_cycles n s).
Proof.
  revert s. induction n as [|n IH]; intros s; [reflexivity|].
  rewrite main_loop_step. cbn [evs processed_cycles].
  rewrite phases_app, body_phases, IH.
  destruct (observes_busy s); reflexivity.
Qed.

Lemma startup_phases (s : State W) :
  res (main_startup s) = Ok tt -> phases (evs (main_startup s)) = [ScanStart].
Proof.
  run_startup s o; intros Hr; first [discriminate Hr | reflexivity].
Qed.

(** C3: restricted to widget processing, the tuner step and scan starts, the
    log of the loop is the sequence processing, tuner step, scan start,
    repeated once per iteration that processed; and the log of the whole
    program is the first scan start followed by that.  So in every cycle the
    tuner step comes after the processing of that cycle and before the scan
    start that follows. *)
Theorem C3_tuner_between_processing_and_scan (n : nat) (s : State W) :
  phases (evs (main_loop n s)) = cycles (processed_cycles n s)
  /\ (res (main_startup s) = Ok tt ->
      phases (evs (main n s))
      = ScanStart :: cycles (processed_cycles n (st (main_startup s)))).
Proof.
  split; [apply loop_phases|].
  intros Hr. rewrite (main_after_startup n s Hr). cbn [evs].
  rewrite phases_app, (startup_phases s Hr), loop_phases. reflexivity.
Qed.

(** [measure_sensor_cp] makes the two measurements in order, keeps each
    status and each stored value, and never halts. *)
Lemma measure_sensor_cp_run (s : State W) :
  exists m0 m1,
    measure_sensor_cp s
    = {| res := Ok tt;
         st := {| world := snd (respond (Cy_CapSense_MeasureCapacitanceSensor
                                           CY_CAPSENSE_BUTTON1_WDGT_ID
                                           CY_CAPSENSE_BUTTON1_SNS0_ID)
                                  (snd (respond (Cy_CapSense_MeasureCapacitanceSensor
                                                   CY_CAPSENSE_BUTTON0_WDGT_ID
                                                   CY_CAPSENSE_BUTTON0_SNS0_ID)
                                          (world s))));
                  globals :=
                    {| button_0_sensor_cp :=
                         stored (ptrValue m0) (button_0_sensor_cp (globals s));
                       button_1_sensor_cp :=
                         stored (ptrValue m1) (button_1_sensor_cp (globals s));
                       cp_0_status := retval m0;
                       cp_1_status := retval m1;
                       ENTER_LOOP := ENTER_LOOP (globals s) |} |};
         evs := [Called (Cy_CapSense_MeasureCapacitanceSensor
                           CY_CAPSENSE_BUTTON0_WDGT_ID CY_CAPSENSE_BUTTON0_SNS0_ID) m0;
                 Called (Cy_CapSense_MeasureCapacitanceSensor
                           CY_CAPSENSE_BUTTON1_WDGT_ID CY_CAPSENSE_BUTTON1_SNS0_ID) m1] |}.
Proof.
  do 2 eexists. unfold measure_sensor_cp, bind, call, get_globals, put_globals.
  cbn. reflexivity.
Qed.


(** ** The start-up sequence and the whole program *)

Lemma main_events (n : nat) (s : State W) :
  exists l,
    evs (main n s) = evs (main_startup s) ++ l
    /\ forallb in_loop l = true
    /\ (res (main_startup s) = Halt -> l = []).
Proof.
  destruct (res (main_startup s)) as [[]|] eqn:E.
  - exists (evs (main_loop n (st (main_startup s)))).
    rewrite (main_after_startup n s E). cbn [evs].
    split; [reflexivity|]. split; [apply loop_calls|discriminate].
  - exists []. rewrite (main_halted n s E). cbn [evs].
    rewrite app_nil_r. auto.
Qed.

Lemma filter_none (p : Event -> bool) (l : list Event) :
  existsb p l = false -> filter p l = [].
Proof.
  induction l as [|x l IH]; simpl; [reflexivity|].
  destruct (p x); simpl; [discriminate|exact IH].
Qed.

Lemma in_filter_api (p : Event -> bool) (l : list Event) (e : Event) :
  In e l -> p e = true -> In (api_of e) (map api_of (filter p l)).
Proof.
  intros Hin Hp. apply in_map, filter_In. auto.
Qed.

Lemma startup_registrations (s : State W) :
  (map api_of (filter is_SetBuffer1 (evs (main_startup s))) = []
   \/ map api_of (filter is_SetBuffer1 (evs (main_startup s)))
      = [Cy_SCB_EZI2C_SetBuffer1 cy_capsense_tuner
           sizeof_cy_capsense_tuner sizeof_cy_capsense_tuner])
  /\ (exists rest,
        map api_of (filter is_SysInt_Init (evs (main_startup s))) ++ rest
        = [Cy_SysInt_Init ezi2c_intr_config ezi2c_isr;
           Cy_SysInt_Init capsense_interrupt_config capsense_isr])
  /\ (res (main_startup s) = Ok tt ->
      map api_of (filter is_SetBuffer1 (evs (main_startup s)))
      = [Cy_SCB_EZI2C_SetBuffer1 cy_capsense_tuner
           sizeof_cy_capsense_tuner sizeof_cy_capsense_tuner]
      /\ map api_of (filter is_SysInt_Init (evs (main_startup s)))
         = [Cy_SysInt_Init ezi2c_intr_config ezi2c_isr;
            Cy_SysInt_Init capsense_interrupt_config capsense_isr]).
Proof.
  run_startup s o.
  all: split; [first [left; reflexivity | right; reflexivity]|].
  all: split; [eexists; reflexivity|].
  all: intros Hr; first [discriminate Hr | split; reflexivity].
Qed.

Lemma startup_installs (s : State W) :
  let l := evs (main_startup s) in
  map api_of (filter is_SetBuffer1 l)
  = (if existsb (succeeded (installs ezi2c_isr)) l
     then [Cy_SCB_EZI2C_SetBuffer1 cy_capsense_tuner
             sizeof_cy_capsense_tuner sizeof_cy_capsense_tuner]
     else [])
  /\ map api_of (filter is_SysInt_Init l)
     = (if existsb (succeeded is_EZI2C_Init) l
        then [Cy_SysInt_Init ezi2c_intr_config ezi2c_isr] else [])
       ++ (if existsb (succeeded is_CapSense_Init) l
           then [Cy_SysInt_Init capsense_interrupt_config capsense_isr] else [])
  /\ (existsb failed l = false ->
      res (main_startup s) = Ok tt
      /\ existsb (succeeded is_EZI2C_Init) l = true
      /\ existsb (succeeded (installs ezi2c_isr)) l = true
      /\ existsb (enables_irq CYBSP_EZI2C_IRQ) l = true
      /\ existsb (succeeded is_CapSense_Init) l = true
      /\ existsb (succeeded (installs capsense_isr)) l = true
      /\ existsb (enables_irq CYBSP_CSD_IRQ) l = true).
Proof.
  run_startup s o.
  all: rewrite ?Z.eqb_refl; cbn; rewrite ?orb_true_r; cbn.
  all: repeat split; intros; try reflexivity; try discriminate.
Qed.

(** C5: a start-up call whose status is not the success value is followed by
    nothing but the UART print of the failure, and the start-up ends halted;
    when the start-up ends halted the whole program is that halted start-up,
    so no call of the loop is ever made.  The checked calls are made in
    program order, each at most once (no retry), and the loop is reached only
    after all seven were made and none failed. *)
Theorem C5_startup_failure_halts (n : nat) (s : State W) :
  (forall pre e post,
      evs (main_startup s) = pre ++ e :: post ->
      failed e = true ->
      res (main_startup s) = Halt /\ forallb is_PutString post = true)
  /\ (res (main_startup s) = Halt ->
      main n s = {| res := Halt; st := st (main_startup s);
                    evs := evs (main_startup s) |}
      /\ existsb is_loop_call (evs (main n s)) = false)
  /\ (exists rest,
        map api_of (filter is_checked (evs (main_startup s))) ++ rest
        = startup_checked_calls)
  /\ (res (main_startup s) = Ok tt ->
      map api_of (filter is_checked (evs (main_startup s))) = startup_checked_calls
      /\ existsb failed (evs (main_startup s)) = false).
Proof.
  destruct (startup_checks s) as (Hstop & Hloop & Hpre & Hres).
  split; [|split; [|split; [exact Hpre|]]].
  - intros pre e post Hev Hf. split.
    + destruct Hres as [(_ & Hnf & _)|[Hh _]]; [|exact Hh].
      exfalso. refine (absent_position failed _ _ _ _ Hnf Hev Hf).
    + apply (stops_at_failure_spec _ pre post e Hstop Hev Hf).
  - intros Hh. rewrite (main_halted n s Hh). cbn [evs]. auto.
  - intros Hr. destruct Hres as [(_ & Hnf & Hall)|[Hh _]]; [auto|congruence].
Qed.

(** C6: the tuner structure is handed to the EZI2C driver by one call of
    [Cy_SCB_EZI2C_SetBuffer1], made in the start-up sequence.  Unless one of
    the start-up calls fails the start-up reaches the loop, and unless one of
    the calls before it fails (board init, EZI2C init, installing the EZI2C
    service routine) the registration is made: the program makes it exactly
    once when the EZI2C service routine was installed with success, and never
    otherwise.  Every such call names the address of [cy_capsense_tuner]
    with its full size both as buffer size and as read/write boundary; the
    program never makes a second one, and the loop makes none. *)
Theorem C6_tuner_buffer_registered_once (n : nat) (s : State W) :
  (forall e, In e (evs (main n s)) -> is_SetBuffer1 e = true ->
     api_of e = Cy_SCB_EZI2C_SetBuffer1 cy_capsense_tuner
                  sizeof_cy_capsense_tuner sizeof_cy_capsense_tuner)
  /\ (count is_SetBuffer1 (evs (main n s)) <= 1)%nat
  /\ (res (main_startup s) = Ok tt ->
      count is_SetBuffer1 (evs (main_startup s)) = 1%nat
      /\ count is_SetBuffer1 (evs (main_loop n (st (main_startup s)))) = 0%nat
      /\ evs (main n s)
         = evs (main_startup s) ++ evs (main_loop n (st (main_startup s))))
  /\ (existsb failed (evs (main_startup s)) = false ->
      res (main_startup s) = Ok tt
      /\ count is_SetBuffer1 (evs (main n s)) = 1%nat)
  /\ count is_SetBuffer1 (evs (main n s))
     = (if existsb (succeeded (installs ezi2c_isr)) (evs (main_startup s))
        then 1 else 0)%nat
  /\ (existsb (succeeded (installs ezi2c_isr)) (evs (main_startup s)) = false ->
      existsb failed (evs (main_startup s)) = true).
Proof.
  destruct (startup_registrations s) as (Hone & _ & Hok).
  destruct (startup_installs s) as (Hreg & _ & Hprog).
  destruct (main_events n s) as (l & Hev & Hl & _).
  assert (Hnl : forall l', forallb in_loop l' = true ->
                           existsb is_SetBuffer1 l' = false).
  { intros l'. apply forallb_excludes. intros [[] r]; cbv; congruence. }
  assert (Hf : filter is_SetBuffer1 (evs (main n s))
               = filter is_SetBuffer1 (evs (main_startup s))).
  { rewrite Hev, filter_app, (filter_none _ l (Hnl l Hl)). apply app_nil_r. }
  assert (Hcount : count is_SetBuffer1 (evs (main n s))
                   = (if existsb (succeeded (installs ezi2c_isr))
                           (evs (main_startup s))
                      then 1 else 0)%nat).
  { unfold count. rewrite Hf, <- (length_map api_of), Hreg.
    destruct (existsb _ _); reflexivity. }
  split; [|split; [|split; [|split; [|split; [exact Hcount|]]]]].
  - intros e Hin He. pose proof (in_filter_api _ _ _ Hin He) as Ha.
    rewrite Hf in Ha. destruct Hone as [Hone|Hone]; rewrite Hone in Ha.
    + destruct Ha.
    + destruct Ha as [Ha|[]]. symmetry. exact Ha.
  - unfold count. rewrite Hf, <- (length_map api_of).
    destruct Hone as [-> | ->]; simpl; lia.
  - intros Hr. destruct (Hok Hr) as [Hb _]. split; [|split].
    + unfold count. rewrite <- (length_map api_of), Hb. reflexivity.
    + apply count_none, Hnl, loop_calls.
    + rewrite (main_after_startup n s Hr). reflexivity.
  - intros Hnf. destruct (Hprog Hnf) as (Hr & _ & Hinst & _).
    split; [exact Hr|]. rewrite Hcount, Hinst. reflexivity.
  - intros Hni. destruct (existsb failed (evs (main_startup s))) eqn:Hfail;
      [reflexivity|].
    destruct (Hprog eq_refl) as (_ & _ & Hinst & _). congruence.
Qed.

(** C7: the EZI2C interrupt is configured with priority value 2 and the
    CapSense interrupt with priority value 3, so by the NVIC convention the
    EZI2C interrupt has the higher priority.  These two configurations, each
    with its own service routine, are the only ones the program ever passes
    to [Cy_SysInt_Init], and it does pass them: the EZI2C one as soon as
    [Cy_SCB_EZI2C_Init] succeeded, the CapSense one as soon as
    [Cy_CapSense_Init] succeeded, in that order.  Unless a start-up call
    fails, the start-up reaches the loop with both installed and both
    interrupts enabled. *)
Theorem C7_ezi2c_priority_above_capsense (n : nat) (s : State W) :
  higher_priority ezi2c_intr_config capsense_interrupt_config
  /\ intrPriority ezi2c_intr_config = EZI2C_INTR_PRIORITY
  /\ intrPriority capsense_interrupt_config = CAPSENSE_INTR_PRIORITY
  /\ (forall e, In e (evs (main n s)) -> is_SysInt_Init e = true ->
        api_of e = Cy_SysInt_Init ezi2c_intr_config ezi2c_isr
        \/ api_of e = Cy_SysInt_Init capsense_interrupt_config capsense_isr)
  /\ (res (main_startup s) = Ok tt ->
      map api_of (filter is_SysInt_Init (evs (main n s)))
      = [Cy_SysInt_Init ezi2c_intr_config ezi2c_isr;
         Cy_SysInt_Init capsense_interrupt_config capsense_isr])
  /\ map api_of (filter is_SysInt_Init (evs (main n s)))
     = (if existsb (succeeded is_EZI2C_Init) (evs (main_startup s))
        then [Cy_SysInt_Init ezi2c_intr_config ezi2c_isr] else [])
       ++ (if existsb (succeeded is_CapSense_Init) (evs (main_startup s))
           then [Cy_SysInt_Init capsense_interrupt_config capsense_isr] else [])
  /\ (existsb failed (evs (main_startup s)) = false ->
      res (main_startup s) = Ok tt
      /\ existsb (succeeded (installs ezi2c_isr)) (evs (main_startup s)) = true
      /\ existsb (enables_irq (intrSrc ezi2c_intr_config)) (evs (main_startup s))
         = true
      /\ existsb (succeeded (installs capsense_isr)) (evs (main_startup s)) = true
      /\ existsb (enables_irq (intrSrc capsense_interrupt_config))
           (evs (main_startup s)) = true).
Proof.
  destruct (startup_registrations s) as (_ & (rest & Hpre) & Hok).
  destruct (startup_installs s) as (_ & Hinst & Hprog).
  destruct (main_events n s) as (l & Hev & Hl & _).
  assert (Hnl : existsb is_SysInt_Init l = false).
  { revert Hl. apply forallb_excludes. intros [[] r]; cbv; congruence. }
  assert (Hf : filter is_SysInt_Init (evs (main n s))
               = filter is_SysInt_Init (evs (main_startup s))).
  { rewrite Hev, filter_app, (filter_none _ l Hnl). apply app_nil_r. }
  split; [|split; [|split; [|split; [|split; [|split]]]]].
  - unfold higher_priority. cbn. unfold EZI2C_INTR_PRIORITY, CAPSENSE_INTR_PRIORITY. lia.
  - reflexivity.
  - reflexivity.
  - intros e Hin He. pose proof (in_filter_api _ _ _ Hin He) as Ha.
    rewrite Hf in Ha.
    assert (Hin2 : In (api_of e)
                     [Cy_SysInt_Init ezi2c_intr_config ezi2c_isr;
                      Cy_SysInt_Init capsense_interrupt_config capsense_isr]).
    { rewrite <- Hpre. apply in_or_app. left. exact Ha. }
    destruct Hin2 as [<-|[<-|[]]]; auto.
  - intros Hr. rewrite Hf. apply (Hok Hr).
  - rewrite Hf. exact Hinst.
  - intros Hnf.
    destruct (Hprog Hnf) as (Hr & _ & Hi1 & He1 & _ & Hi2 & He2).
    repeat split; assumption.
Qed.

(** ** Further properties of the loop and of the start-up *)

Ltac plain_tests :=
  repeat match goal with
         | E : negb ?c = true |- _ => apply negb_true_iff in E
         | E : negb ?c = false |- _ => apply negb_false_iff in E
         end.

Ltac run_body s o :=
  let Ho := fresh "Ho" in
  remember (main_loop_body s) as o eqn:Ho;
  unfold main_loop_body, measure_sensor_cp, bind, call, when, ret,
    get_globals, put_globals in Ho;
  cbn in Ho;
  repeat (match type of Ho with
          | context [if ?c then _ else _] => destruct c eqn:?
          end; cbn in Ho);
  subst o; cbn; plain_tests; use_tests.

Lemma body_state (s : State W) :
  ENTER_LOOP (globals (st (main_loop_body s)))
  = ENTER_LOOP (globals s) && negb DEBUG_PRINT
  /\ count is_PutString (evs (main_loop_body s))
     = (if DEBUG_PRINT && ENTER_LOOP (globals s) then 1 else 0)%nat
  /\ (CY_CAPSENSE_BIST_EN = false ->
      button_0_sensor_cp (globals (st (main_loop_body s))) = button_0_sensor_cp (globals s)
      /\ button_1_sensor_cp (globals (st (main_loop_body s))) = button_1_sensor_cp (globals s)
      /\ cp_0_status (globals (st (main_loop_body s))) = cp_0_status (globals s)
      /\ cp_1_status (globals (st (main_loop_body s))) = cp_1_status (globals s)).
Proof.
  run_body s o.
  all: rewrite ?andb_true_r, ?andb_false_r.
  all: repeat split; try reflexivity; try discriminate; try assumption; auto.
Qed.

Lemma body_counts (s : State W) :
  let k := (if observes_busy s then 0 else 1)%nat in
  count is_IsBusy (evs (main_loop_body s)) = 1%nat
  /\ count is_Process (evs (main_loop_body s)) = k
  /\ count is_GPIO_Write (evs (main_loop_body s)) = (2 * k)%nat
  /\ count is_RunTuner (evs (main_loop_body s)) = k
  /\ count is_Scan (evs (main_loop_body s)) = k
  /\ count is_Measure (evs (main_loop_body s))
     = (if CY_CAPSENSE_BIST_EN then 2 * k else 0)%nat.
Proof.
  unfold observes_busy, busy_answer.
  run_body s o.
  all: repeat split; try reflexivity.
  all: destruct CY_CAPSENSE_BIST_EN; reflexivity.
Qed.

Lemma body_targets (s : State W) :
  forallb well_targeted (evs (main_loop_body s)) = true.
Proof.
  run_body s o.
  all: rewrite ?Z.eqb_refl; cbn; rewrite ?orb_true_r; reflexivity.
Qed.


Lemma out_eta (n : nat) (s : State W) :
  main_loop n s
  = {| res := Ok tt; st := st (main_loop n s); evs := evs (main_loop n s) |}.
Proof.
  pose proof (main_loop_never_halts n s) as Hr.
  destruct (main_loop n s) as [r s' e']. simpl in *. now rewrite Hr.
Qed.

(** X8: the loop never halts, so its first [m + n] iterations are its first
    [m] iterations followed by [n] iterations from the state they leave: the
    logs concatenate and the numbers of processed cycles add up. *)
Theorem X8_loop_composes (m n : nat) (s : State W) :
  main_loop (m + n) s
  = {| res := Ok tt;
       st := st (main_loop n (st (main_loop m s)));
       evs := evs (main_loop m s) ++ evs (main_loop n (st (main_loop m s))) |}
  /\ processed_cycles (m + n) s
     = (processed_cycles m s + processed_cycles n (st (main_loop m s)))%nat.
Proof.
  revert s. induction m as [|m IH]; intros s.
  - split; [apply out_eta|reflexivity].
  - destruct (IH (st (main_loop_body s))) as [IHr IHp].
    change (S m + n)%nat with (S (m + n)).
    rewrite !main_loop_step. cbn [st evs processed_cycles].
    rewrite IHr, IHp. cbn [res st evs]. rewrite app_assoc.
    split; [reflexivity|lia].
Qed.

(** X9: over [n] iterations the loop polls [Cy_CapSense_IsBusy] exactly [n]
    times, once per iteration, and for each iteration that processed it
    makes one processing call, two LED writes, one tuner step, one scan start
    and, when the self-test is compiled in, two capacitance measurements
    (none otherwise). *)
Theorem X9_loop_call_counts (n : nat) (s : State W) :
  count is_IsBusy (evs (main_loop n s)) = n
  /\ count is_Process (evs (main_loop n s)) = processed_cycles n s
  /\ count is_GPIO_Write (evs (main_loop n s)) = (2 * processed_cycles n s)%nat
  /\ count is_RunTuner (evs (main_loop n s)) = processed_cycles n s
  /\ count is_Scan (evs (main_loop n s)) = processed_cycles n s
  /\ count is_Measure (evs (main_loop n s))
     = (if CY_CAPSENSE_BIST_EN then 2 * processed_cycles n s else 0)%nat.
Proof.
  revert s. induction n as [|n IH]; intros s.
  - cbn. destruct CY_CAPSENSE_BIST_EN; repeat split; reflexivity.
  - rewrite main_loop_step. cbn [evs processed_cycles]. rewrite !count_app.
    destruct (body_counts s) as (B1 & B2 & B3 & B4 & B5 & B6).
    destruct (IH (st (main_loop_body s))) as (I1 & I2 & I3 & I4 & I5 & I6).
    rewrite B1, B2, B3, B4, B5, B6, I1, I2, I3, I4, I5, I6.
    destruct CY_CAPSENSE_BIST_EN; repeat split; lia.
Qed.

Lemma loop_enter_loop (n : nat) (s : State W) :
  ENTER_LOOP (globals (st (main_loop n s)))
  = ENTER_LOOP (globals s) && (negb DEBUG_PRINT || (n =? 0)%nat).
Proof.
  revert s. induction n as [|n IH]; intros s.
  - cbn. now rewrite orb_true_r, andb_true_r.
  - rewrite main_loop_step. cbn [st]. rewrite IH, (proj1 (body_state s)).
    cbn [Nat.eqb]. destruct DEBUG_PRINT, (ENTER_LOOP (globals s)), (n =? 0)%nat;
      reflexivity.
Qed.

Lemma loop_print_count (n : nat) (s : State W) :
  count is_PutString (evs (main_loop n s))
  = (if DEBUG_PRINT && ENTER_LOOP (globals s) && negb (n =? 0)%nat then 1 else 0)%nat.
Proof.
  revert s. induction n as [|n IH]; intros s.
  - cbn. now rewrite !andb_false_r.
  - rewrite main_loop_step. cbn [evs]. rewrite count_app, IH.
    destruct (body_state s) as (Be & Bc & _). rewrite Bc, Be. cbn [Nat.eqb negb].
    destruct DEBUG_PRINT, (ENTER_LOOP (globals s)), (n =? 0)%nat; reflexivity.
Qed.

(** X10: the loop prints at most one line, whatever the number of
    iterations.  With debug printing on and [ENTER_LOOP] set it prints the
    line exactly once, in the first iteration, and leaves [ENTER_LOOP]
    cleared; with debug printing off or [ENTER_LOOP] clear it prints
    nothing. *)
Theorem X10_debug_line_printed_once (n : nat) (s : State W) :
  (count is_PutString (evs (main_loop n s)) <= 1)%nat
  /\ (DEBUG_PRINT = true -> ENTER_LOOP (globals s) = true -> (0 < n)%nat ->
      count is_PutString (evs (main_loop n s)) = 1%nat
      /\ count is_PutString (evs (main_loop_body s)) = 1%nat
      /\ ENTER_LOOP (globals (st (main_loop n s))) = false)
  /\ (DEBUG_PRINT = false \/ ENTER_LOOP (globals s) = false ->
      count is_PutString (evs (main_loop n s)) = 0%nat).
Proof.
  rewrite loop_print_count. split; [|split].
  - destruct (_ && _ && _); lia.
  - intros Hd He Hn. destruct n; [lia|].
    split; [rewrite Hd, He; reflexivity|]. split.
    + rewrite (proj1 (proj2 (body_state s))), Hd, He. reflexivity.
    + rewrite loop_enter_loop, Hd. apply andb_false_r.
  - intros [-> | ->]; [reflexivity|]. now rewrite andb_false_r.
Qed.





Lemma main_guarded (p q : Event -> bool) (n : nat) (s : State W) :
  guarded p q false (evs (main_startup s)) = true ->
  (res (main_startup s) = Ok tt -> existsb p (evs (main_startup s)) = true) ->
  guarded p q false (evs (main n s)) = true.
Proof.
  intros Hg Hp. destruct (res (main_startup s)) as [[]|] eqn:E.
  - rewrite (main_after_startup n s E). cbn [evs].
    rewrite guarded_app, Hg, (Hp eq_refl). apply guarded_seen.
  - rewrite (main_halted n s E). exact Hg.
Qed.

Lemma startup_order (s : State W) :
  let l := evs (main_startup s) in
  (guarded is_UART_Init is_PutString false l = true
   /\ guarded is_UART_Enable is_PutString false l = true
   /\ (DEBUG_PRINT = false -> existsb is_UART l = false)
   /\ (DEBUG_PRINT = true -> res (main_startup s) = Ok tt ->
       existsb is_UART_Init l = true /\ existsb is_UART_Enable l = true))
  /\ (guarded (succeeded is_CapSense_Init) is_Scan false l = true
      /\ guarded (succeeded (installs capsense_isr)) is_Scan false l = true
      /\ guarded (clears_pending CYBSP_CSD_IRQ) is_Scan false l = true
      /\ guarded (enables_irq CYBSP_CSD_IRQ) is_Scan false l = true
      /\ guarded (succeeded is_CapSense_Enable) is_Scan false l = true
      /\ (res (main_startup s) = Ok tt ->
          existsb (succeeded is_CapSense_Init) l = true
          /\ existsb (succeeded (installs capsense_isr)) l = true
          /\ existsb (clears_pending CYBSP_CSD_IRQ) l = true
          /\ existsb (enables_irq CYBSP_CSD_IRQ) l = true
          /\ existsb (succeeded is_CapSense_Enable) l = true))
  /\ (guarded (succeeded is_EZI2C_Init) is_SetBuffer1 false l = true
      /\ guarded (succeeded (installs ezi2c_isr)) is_SetBuffer1 false l = true
      /\ guarded (enables_irq CYBSP_EZI2C_IRQ) is_SetBuffer1 false l = true
      /\ guarded is_SetBuffer1 is_EZI2C_Enable false l = true).
Proof.
  run_startup s o.
  all: rewrite ?Z.eqb_refl; cbn; rewrite ?orb_true_r; cbn.
  all: repeat split; intros; try reflexivity; try discriminate.
Qed.

Lemma count_zero_none (p : Event -> bool) (l : list Event) :
  count p l = O -> existsb p l = false.
Proof.
  unfold count. induction l as [|x l IH]; simpl; [reflexivity|].
  destruct (p x); simpl; [discriminate|exact IH].
Qed.

Lemma main_guarded_startup (p q : Event -> bool) (n : nat) (s : State W) :
  guarded p q false (evs (main_startup s)) = true ->
  (forall e, in_loop e = true -> q e = false) ->
  guarded p q false (evs (main n s)) = true.
Proof.
  intros Hg Hq. destruct (main_events n s) as (l & -> & Hl & _).
  rewrite guarded_app, Hg. apply guarded_none.
  revert Hl. apply forallb_excludes, Hq.
Qed.

(** X4: a UART print is only ever made with debug printing on, and after the
    UART has been initialised and enabled. *)
Theorem X4_uart_ready_before_print
    (n : nat) (s : State W) (pre post : list Event) (e : Event) :
  evs (main n s) = pre ++ e :: post ->
  is_PutString e = true ->
  DEBUG_PRINT = true
  /\ existsb is_UART_Init pre = true
  /\ existsb is_UART_Enable pre = true.
Proof.
  intros Hev He.
  destruct (startup_order s) as ((G1 & G2 & Hoff & Hon) & _).
  destruct DEBUG_PRINT eqn:Hd.
  - split; [reflexivity|]. split.
    + refine (guarded_spec is_UART_Init is_PutString _ _ _ _ _ Hev He).
      apply main_guarded; [exact G1|]. intros Hr. apply (Hon eq_refl Hr).
    + refine (guarded_spec is_UART_Enable is_PutString _ _ _ _ _ Hev He).
      apply main_guarded; [exact G2|]. intros Hr. apply (Hon eq_refl Hr).
  - exfalso. refine (absent_position is_PutString _ _ _ _ _ Hev He).
    destruct (res (main_startup s)) as [[]|] eqn:E.
    + rewrite (main_after_startup n s E). cbn [evs]. rewrite existsb_app.
      apply orb_false_iff. split.
      * specialize (Hoff eq_refl). revert Hoff. generalize (evs (main_startup s)).
        induction l as [|x l IH]; simpl; [reflexivity|]. unfold is_UART at 1.
        intros Hx. apply orb_false_iff in Hx as [Hx Hl].
        apply orb_false_iff in Hx as [_ ->]. apply IH, Hl.
      * apply count_zero_none. rewrite loop_print_count, Hd. reflexivity.
    + rewrite (main_halted n s E). cbn [evs].
      specialize (Hoff eq_refl). revert Hoff. generalize (evs (main_startup s)).
      induction l as [|x l IH]; simpl; [reflexivity|]. unfold is_UART at 1.
      intros Hx. apply orb_false_iff in Hx as [Hx Hl].
      apply orb_false_iff in Hx as [_ ->]. apply IH, Hl.
Qed.

(** X5: every scan start of the program, the first one and those of the
    loop, comes after [Cy_CapSense_Init] succeeded, the CapSense service
    routine was installed with success, [NVIC_ClearPendingIRQ] and
    [NVIC_EnableIRQ] were called for the CapSense interrupt number, and
    [Cy_CapSense_Enable] succeeded. *)
Theorem X5_scan_only_when_ready
    (n : nat) (s : State W) (pre post : list Event) (e : Event) :
  evs (main n s) = pre ++ e :: post ->
  is_Scan e = true ->
  existsb (succeeded is_CapSense_Init) pre = true
  /\ existsb (succeeded (installs capsense_isr)) pre = true
  /\ existsb (clears_pending CYBSP_CSD_IRQ) pre = true
  /\ existsb (enables_irq CYBSP_CSD_IRQ) pre = true
  /\ existsb (succeeded is_CapSense_Enable) pre = true.
Proof.
  intros Hev He.
  destruct (startup_order s) as (_ & (G1 & G2 & G3 & G4 & G5 & Hok) & _).
  repeat split.
  - refine (guarded_spec _ is_Scan _ _ _ _ _ Hev He).
    apply main_guarded; [exact G1|]. intros Hr. apply (Hok Hr).
  - refine (guarded_spec _ is_Scan _ _ _ _ _ Hev He).
    apply main_guarded; [exact G2|]. intros Hr. apply (Hok Hr).
  - refine (guarded_spec _ is_Scan _ _ _ _ _ Hev He).
    apply main_guarded; [exact G3|]. intros Hr. apply (Hok Hr).
  - refine (guarded_spec _ is_Scan _ _ _ _ _ Hev He).
    apply main_guarded; [exact G4|]. intros Hr. apply (Hok Hr).
  - refine (guarded_spec _ is_Scan _ _ _ _ _ Hev He).
    apply main_guarded; [exact G5|]. intros Hr. apply (Hok Hr).
Qed.

(** X6: the tuner buffer is registered only after [Cy_SCB_EZI2C_Init]
    succeeded, the EZI2C service routine was installed with success and the
    EZI2C interrupt was enabled; and the EZI2C block is enabled only after
    the buffer was registered. *)
Theorem X6_tuner_buffer_set_up_in_order
    (n : nat) (s : State W) (pre post : list Event) (e : Event) :
  evs (main n s) = pre ++ e :: post ->
  (is_SetBuffer1 e = true ->
   existsb (succeeded is_EZI2C_Init) pre = true
   /\ existsb (succeeded (installs ezi2c_isr)) pre = true
   /\ existsb (enables_irq CYBSP_EZI2C_IRQ) pre = true)
  /\ (is_EZI2C_Enable e = true -> existsb is_SetBuffer1 pre = true).
Proof.
  intros Hev.
  destruct (startup_order s) as (_ & _ & (G1 & G2 & G3 & G4)).
  assert (Hb : forall e', in_loop e' = true -> is_SetBuffer1 e' = false)
    by (intros [[] r]; cbv; congruence).
  assert (Hn : forall e', in_loop e' = true -> is_EZI2C_Enable e' = false)
    by (intros [[] r]; cbv; congruence).
  split; [intros He; repeat split|intros He].
  - refine (guarded_spec _ is_SetBuffer1 _ _ _ _ _ Hev He).
    apply main_guarded_startup; assumption.
  - refine (guarded_spec _ is_SetBuffer1 _ _ _ _ _ Hev He).
    apply main_guarded_startup; assumption.
  - refine (guarded_spec _ is_SetBuffer1 _ _ _ _ _ Hev He).
    apply main_guarded_startup; assumption.
  - refine (guarded_spec _ is_EZI2C_Enable _ _ _ _ _ Hev He).
    apply main_guarded_startup; assumption.
Qed.

Lemma loop_targets (n : nat) (s : State W) :
  forallb well_targeted (evs (main_loop n s)) = true.
Proof.
  revert s. induction n as [|n IH]; intros s; [reflexivity|].
  rewrite main_loop_step. cbn [evs]. rewrite forallb_app, body_targets, IH.
  reflexivity.
Qed.

Lemma startup_targets (s : State W) :
  forallb well_targeted (evs (main_startup s)) = true.
Proof.
  destruct (startup_checks s) as (_ & Hl & _). revert Hl.
  generalize (evs (main_startup s)).
  induction l as [|[a r] l IH]; simpl; [reflexivity|].
  intros Hx. apply orb_false_iff in Hx as [Hx Hl]. rewrite (IH Hl).
  destruct a; try reflexivity; discriminate Hx.
Qed.

(** X12: every GPIO write of the program drives the Button0 LED pin or the
    Button1 LED pin, with the ON or the OFF value, and every widget status
    read is for Button0 or Button1. *)
Theorem X12_only_leds_and_buttons (n : nat) (s : State W) (e : Event) :
  In e (evs (main n s)) ->
  (forall port pin v,
      api_of e = Cy_GPIO_Write port pin v ->
      ((port = CYBSP_LED_BTN0_PORT /\ pin = CYBSP_LED_BTN0_NUM)
       \/ (port = CYBSP_LED_BTN1_PORT /\ pin = CYBSP_LED_BTN1_NUM))
      /\ (v = CYBSP_LED_STATE_ON \/ v = CYBSP_LED_STATE_OFF))
  /\ (forall w,
        api_of e = Cy_CapSense_IsWidgetActive w ->
        w = CY_CAPSENSE_BUTTON0_WDGT_ID \/ w = CY_CAPSENSE_BUTTON1_WDGT_ID).
Proof.
  intros Hin.
  assert (Ht : well_targeted e = true).
  { destruct (main_events n s) as (l & Hev & _).
    assert (Hall : forallb well_targeted (evs (main n s)) = true).
    { destruct (res (main_startup s)) as [[]|] eqn:E.
      - rewrite (main_after_startup n s E). cbn [evs].
        rewrite forallb_app, startup_targets, loop_targets. reflexivity.
      - rewrite (main_halted n s E). apply startup_targets. }
    rewrite forallb_forall in Hall. apply Hall, Hin. }
  unfold well_targeted in Ht. split.
  - intros port pin v Ha. rewrite Ha in Ht.
    apply andb_true_iff in Ht as [Hp Hv].
    apply orb_true_iff in Hp. apply orb_true_iff in Hv.
    rewrite !andb_true_iff, !Z.eqb_eq in Hp. rewrite !Z.eqb_eq in Hv. auto.
  - intros w Ha. rewrite Ha in Ht.
    apply orb_true_iff in Ht. rewrite !Z.eqb_eq in Ht. exact Ht.
Qed.

(** X13: inside the loop a scan is requested only in an iteration whose busy
    check answered not-busy, after the processing call and the tuner step of
    that iteration, at most once, and nothing but the debug print follows it
    in the iteration. *)
Theorem X13_scan_closes_iteration
    (s : State W) (pre post : list Event) (e : Event) :
  evs (main_loop_body s) = pre ++ e :: post ->
  is_Scan e = true ->
  observes_busy s = false
  /\ existsb is_Process pre = true
  /\ existsb is_RunTuner pre = true
  /\ existsb is_Scan pre = false
  /\ forallb is_PutString post = true.
Proof.
  intros Hev He. destruct (observes_busy s) eqn:E.
  - exfalso. destruct (body_when_busy s E) as (_ & dbg & Hb & Hd & _).
    rewrite Hb in Hev. refine (absent_position is_Scan _ _ _ _ _ Hev He). absent.
  - destruct (body_when_idle s E)
      as (_ & rp & a0 & g0 & a1 & g1 & rt & bist & rs & dbg & Hb & Hd & Hm & _).
    rewrite Hb in Hev.
    change (?e1 :: ?e2 :: ?e3 :: ?e4 :: ?e5 :: ?e6 :: ?e7 :: bist ++ ?x :: dbg)
      with (([e1; e2; e3; e4; e5; e6; e7] ++ bist) ++ x :: dbg) in Hev.
    apply (unique_position is_Scan) in Hev as (-> & _ & ->);
      [|absent|reflexivity|absent|exact He].
    split; [reflexivity|]. split; [reflexivity|]. split; [reflexivity|].
    split; [absent|exact Hd].
Qed.



Lemma after_failure_spec (l pre post : list Event) (e : Event) :
  stops_at_failure l = true ->
  l = pre ++ e :: post ->
  failed e = true ->
  after_failure l = Some (e, post).
Proof.
  revert l. induction pre as [|z pre IH]; intros l Hl -> He; simpl in *.
  - rewrite He. reflexivity.
  - destruct (failed z).
    + rewrite forallb_app in Hl. simpl in Hl.
      apply andb_true_iff in Hl as [_ Hl]. apply andb_true_iff in Hl as [Hl _].
      rewrite (PutString_not_failed e Hl) in He. discriminate.
    + apply (IH _ Hl eq_refl He).
Qed.

Lemma startup_report (s : State W) :
  match after_failure (evs (main_startup s)) with
  | Some (e, post) =>
      map api_of post = failure_report (api_of e) (retval (resp_of e))
  | None => True
  end.
Proof.
  run_startup s o.
  all: first [exact I | reflexivity].
Qed.

(** X3: what follows a failed start-up call is exactly the report of
    [check_status] for that call and its status: the six prints when debug
    printing is on, nothing when it is off, and nothing at all for a failure
    of [cybsp_init], which is tested before the UART is set up. *)
Theorem X3_failure_is_reported
    (s : State W) (pre post : list Event) (e : Event) :
  evs (main_startup s) = pre ++ e :: post ->
  failed e = true ->
  map api_of post = failure_report (api_of e) (retval (resp_of e))
  /\ (DEBUG_PRINT = false -> post = [])
  /\ (api_of e = cybsp_init -> post = []).
Proof.
  intros Hev He.
  destruct (startup_checks s) as (Hstop & _).
  pose proof (startup_report s) as Hr.
  rewrite (after_failure_spec _ pre post e Hstop Hev He) in Hr.
  split; [exact Hr|]. split.
  - intros Hd. unfold failure_report in Hr. rewrite Hd in Hr.
    destruct (failure_message (api_of e)); destruct post; try reflexivity; discriminate Hr.
  - intros Ha. rewrite Ha in Hr. destruct post; [reflexivity|discriminate Hr].
Qed.

End LoopFacts.

(** ** The widget decision *)

Section Hysteresis.

Import SignalProcessor.

(** C9, as the specification has it with its range policy: in a processed
    cycle every widget of the cycle is decided, and OFF stays below ON.  For
    a sensor whose raw count is within the measurement range of the device
    the threshold rule decides: a widget that was inactive becomes active
    only on a difference count at or above its ON threshold, a widget that
    was active becomes inactive only on a difference count at or below its
    OFF threshold, and a difference count strictly between the two leaves
    the state as it was.  A sensor whose raw count is outside the range
    makes the widget inactive whatever its difference count. *)
Theorem C9_hysteresis_within_range
    (dev : Device) (ws : list (Widget * Sensor)) (w : Widget) (sn : Sensor) :
  In (w, sn) ws ->
  well_configured w ->
  In (process_widget dev w sn) (process_all_widgets dev ws)
  /\ well_configured (process_widget dev w sn)
  /\ (plausible dev sn = true ->
      (active w = false -> active (process_widget dev w sn) = true ->
       on_threshold w <= difference_count sn)
      /\ (active w = true -> active (process_widget dev w sn) = false ->
          difference_count sn <= off_threshold w)
      /\ (off_threshold w < difference_count sn < on_threshold w ->
          active (process_widget dev w sn) = active w))
  /\ (plausible dev sn = false -> active (process_widget dev w sn) = false).
Proof.
  intros Hin Hwf. unfold well_configured in *.
  split; [|split; [exact Hwf|split]].
  - unfold process_all_widgets.
    change (process_widget dev w sn)
      with ((fun p => process_widget dev (fst p) (snd p)) (w, sn)).
    apply in_map, Hin.
  - intros Hp. cbn [process_widget active]. rewrite Hp. unfold decide.
    destruct (Z.leb_spec (on_threshold w) (difference_count sn));
      destruct (Z.leb_spec (difference_count sn) (off_threshold w));
      repeat split; intros; try congruence; try lia.
  - intros Hp. cbn [process_widget active]. rewrite Hp. reflexivity.
Qed.

End Hysteresis.

(** ** The theorems at work on the simulated platform *)


Lemma C4_counterexample :
  ~ @runtime_failure_is_fatal nat (simulated troubled) (sample_headers true false)
      idle_state.
Proof.
  intros Hfatal.
  destruct (Hfatal [Called Cy_CapSense_IsBusy (status 0)]
                   (Called Cy_CapSense_ProcessAllWidgets (status 2))
                   (skipn 2 (evs troubled_cycle))
                   eq_refl eq_refl) as [Hhalt _].
  discriminate Hhalt.
Qed.

Lemma C4_witness :
  evs troubled_cycle
  = [Called Cy_CapSense_IsBusy (status 0)]
    ++ Called Cy_CapSense_ProcessAllWidgets (status 2)
    :: skipn 2 (evs troubled_cycle)
  /\ @runtime_failure (sample_headers true false)
       (Called Cy_CapSense_ProcessAllWidgets (status 2)) = true
  /\ existsb is_Scan (skipn 2 (evs troubled_cycle)) = true
  /\ count is_GPIO_Write (skipn 2 (evs troubled_cycle)) = 2%nat
  /\ existsb is_RunTuner (skipn 2 (evs troubled_cycle)) = true.
Proof.
  split; [reflexivity|]. split; [reflexivity|].
  destruct (@C4_runtime_status_is_discarded nat (simulated troubled)
              (sample_headers true false) idle_state
              [Called Cy_CapSense_IsBusy (status 0)]
              (skipn 2 (evs troubled_cycle))
              (Called Cy_CapSense_ProcessAllWidgets (status 2))
              eq_refl (or_introl eq_refl)) as [Hscan Hrest].
  destruct (Hrest eq_refl) as [Hleds Htuner].
  repeat split; assumption.
Defined.

Lemma C6_witness :
  existsb (@failed (sample_headers true false)) (evs quiet_startup) = false
  /\ res quiet_startup = Ok tt
  /\ count is_SetBuffer1 (evs quiet_run) = 1%nat.
Proof.
  unfold quiet_startup, quiet_run.
  match goal with
  | |- ?A /\ _ => assert (Hnf : A) by (vm_compute; reflexivity)
  end.
  split; [exact Hnf|].
  destruct (@C6_tuner_buffer_registered_once nat (simulated quiet)
              (sample_headers true false) 3%nat idle_state)
    as (_ & _ & _ & Hprog & _).
  exact (Hprog Hnf).
Defined.

Lemma C7_witness :
  existsb (@failed (sample_headers true false)) (evs quiet_startup) = false
  /\ res quiet_startup = Ok tt
  /\ map api_of (filter is_SysInt_Init (evs quiet_run))
     = [Cy_SysInt_Init {| intrSrc := 9; intrPriority := 2 |} ezi2c_isr;
        Cy_SysInt_Init {| intrSrc := 15; intrPriority := 3 |} capsense_isr]
  /\ 2 < 3.
Proof.
  unfold quiet_startup, quiet_run.
  match goal with
  | |- ?A /\ _ => assert (Hnf : A) by (vm_compute; reflexivity)
  end.
  split; [exact Hnf|].
  destruct (@C7_ezi2c_priority_above_capsense nat (simulated quiet)
              (sample_headers true false) 3%nat idle_state)
    as (Hprio & _ & _ & _ & Hboth & _ & Hprog).
  destruct (Hprog Hnf) as (Hr & _).
  split; [exact Hr|]. split; [exact (Hboth Hr)|exact Hprio].
Defined.


Lemma C10_witness :
  @DEBUG_PRINT (sample_headers true false) = DEBUG_PRINT_in_source
  /\ @observes_busy nat (simulated quiet) (sample_headers true false) scanning_state = true
  /\ busy_cycle
     = {| res := Ok tt;
          st := {| world := 1%nat; globals := initial_globals |};
          evs := [Called Cy_CapSense_IsBusy (status 128)] |}
  /\ existsb (fun e => is_Process e || is_GPIO_Write e || is_RunTuner e
                       || is_Measure e || is_Scan e)
             (evs busy_cycle) = false.
Proof.
  split; [reflexivity|]. split; [reflexivity|].
  exact (@C10_busy_iteration_changes_nothing nat (simulated quiet)
           (sample_headers true false) scanning_state eq_refl eq_refl).
Defined.

Lemma C9_counterexample :
  SignalProcessor.well_configured touched_widget
  /\ ~ SignalProcessor.thresholds_alone_decide sample_device touched_widget
        out_of_range_sensor.
Proof.
  split; [unfold SignalProcessor.well_configured; simpl; lia|].
  intros (_ & Hoff & Hkeep).
  assert (Hd : SignalProcessor.difference_count out_of_range_sensor = 35)
    by reflexivity.
  assert (Hb : SignalProcessor.off_threshold touched_widget
               < SignalProcessor.difference_count out_of_range_sensor
               < SignalProcessor.on_threshold touched_widget)
    by (rewrite Hd; simpl; lia).
  specialize (Hkeep Hb). discriminate Hkeep.
Qed.

Lemma C9_witness :
  In (sample_widget, sample_sensor) [(sample_widget, sample_sensor)]
  /\ SignalProcessor.well_configured sample_widget
  /\ SignalProcessor.plausible sample_device sample_sensor = true
  /\ SignalProcessor.difference_count sample_sensor = 51
  /\ SignalProcessor.active
       (SignalProcessor.process_widget sample_device sample_widget sample_sensor)
     = true
  /\ 50 <= SignalProcessor.difference_count sample_sensor.
Proof.
  assert (Hin : In (sample_widget, sample_sensor) [(sample_widget, sample_sensor)])
    by (left; reflexivity).
  assert (Hwf : SignalProcessor.well_configured sample_widget)
    by (unfold SignalProcessor.well_configured; simpl; lia).
  split; [exact Hin|]. split; [exact Hwf|].
  split; [reflexivity|]. split; [reflexivity|]. split; [reflexivity|].
  destruct (C9_hysteresis_within_range sample_device _ _ _ Hin Hwf)
    as (_ & _ & Hin_range & _).
  destruct (Hin_range eq_refl) as (Hon & _).
  exact (Hon eq_refl eq_refl).
Defined.

(** ** Runs on the simulated platform *)

(** A start-up in which [Cy_CapSense_Init] fails, with debug printing on:
    the checked calls up to the failing one, then a halt. *)
Example startup_without_capsense :
  let o := @main nat (simulated no_capsense) (sample_headers false true) 4 idle_state in
  res o = Halt
  /\ map api_of (filter (@is_checked (sample_headers false true)) (evs o))
     = [cybsp_init; Cy_SCB_EZI2C_Init;
        Cy_SysInt_Init {| intrSrc := 9; intrPriority := 2 |} ezi2c_isr;
        Cy_CapSense_Init]
  /\ last (map api_of (evs o)) cybsp_init = Cy_SCB_UART_PutString banner.
Proof.
  repeat split.
Qed.

(** Three iterations after a clean start-up: busy, processed, busy. *)
Example quiet_three_iterations :
  let o := @main nat (simulated quiet) (sample_headers false false) 3 idle_state in
  res o = Ok tt
  /\ phases (evs o) = [ScanStart; Processing; Reporting; ScanStart]
  /\ count is_IsBusy (evs o) = 3%nat
  /\ map api_of (filter is_GPIO_Write (evs o))
     = [Cy_GPIO_Write 2 0 1; Cy_GPIO_Write 2 1 1].
Proof.
  repeat split.
Qed.

(** The iteration under the [troubled] script: Button0 touched, the first
    measurement fails with status 7, the second stores 11500. *)
Example troubled_cycle_run :
  map api_of (evs troubled_cycle)
  = [Cy_CapSense_IsBusy; Cy_CapSense_ProcessAllWidgets;
     Cy_CapSense_IsWidgetActive 0; Cy_GPIO_Write 2 0 0;
     Cy_CapSense_IsWidgetActive 1; Cy_GPIO_Write 2 1 1;
     Cy_CapSense_RunTuner;
     Cy_CapSense_MeasureCapacitanceSensor 0 0;
     Cy_CapSense_MeasureCapacitanceSensor 1 0;
     Cy_CapSense_ScanAllWidgets]
  /\ globals (st troubled_cycle)
     = {| button_0_sensor_cp := 0; button_1_sensor_cp := 11500;
          cp_0_status := 7; cp_1_status := 0; ENTER_LOOP := true |}.
Proof.
  split; reflexivity.
Qed.

Example error_msg_of_one :
  error_msg 1 = ("Error Code: 0x00000001" ++ LF)%string.
Proof.
  reflexivity.
Qed.

Example error_msg_wraps :
  error_msg (2 ^ 32 + 43981) = ("Error Code: 0x0000ABCD" ++ LF)%string.
Proof.
  reflexivity.
Qed.

(** The two scenarios of the specification for the threshold rule: a ramp
    over a baseline of 100 with ON at 50 switches the widget on at the first
    difference count of 50; a one-cycle spike above ON followed by 0 switches
    it on and off again. *)
Example ramp_scenario :
  SignalProcessor.run_cycles sample_device sample_widget
    (map (fun raw => {| SignalProcessor.raw_count := raw;
                        SignalProcessor.baseline := 100 |})
         [100; 115; 130; 145; 150; 160])
  = [false; false; false; false; true; true].
Proof.
  reflexivity.
Qed.

Example spike_scenario :
  SignalProcessor.run_cycles sample_device sample_widget
    (map (fun raw => {| SignalProcessor.raw_count := raw;
                        SignalProcessor.baseline := 100 |})
         [151; 100])
  = [true; false].
Proof.
  reflexivity.
Qed.

(** The out-of-range scenario of the specification: a touched widget whose
    sensor reports a raw count above the range is made inactive, while a
    sibling widget with a reading in range is decided by the thresholds. *)
Example out_of_range_scenario :
  map SignalProcessor.active
    (SignalProcessor.process_all_widgets sample_device
       [(touched_widget, out_of_range_sensor); (sample_widget, sample_sensor)])
  = [false; true].
Proof.
  reflexivity.
Qed.

(** ** The further properties at work on the simulated platform *)

Lemma X3_witness :
  evs failed_startup
  = firstn 13 (evs failed_startup)
    ++ Called Cy_CapSense_Init (status 1) :: skipn 14 (evs failed_startup)
  /\ @failed (sample_headers false true) (Called Cy_CapSense_Init (status 1)) = true
  /\ map api_of (skipn 14 (evs failed_startup))
     = @failure_report (sample_headers false true) Cy_CapSense_Init 1.
Proof.
  unfold failed_startup.
  match goal with
  | |- ?A /\ _ => assert (Hev : A) by (vm_compute; reflexivity)
  end.
  split; [exact Hev|]. split; [reflexivity|].
  exact (proj1 (@X3_failure_is_reported nat (simulated no_capsense)
                  (sample_headers false true) idle_state _ _ _ Hev eq_refl)).
Defined.

Lemma X4_witness :
  evs debug_run
  = firstn 20 (evs debug_run)
    ++ Called (Cy_SCB_UART_PutString ("Entered for loop" ++ CR ++ LF)) (status 0)
    :: skipn 21 (evs debug_run)
  /\ @DEBUG_PRINT (sample_headers false true) = true
  /\ existsb is_UART_Init (firstn 20 (evs debug_run)) = true
  /\ existsb is_UART_Enable (firstn 20 (evs debug_run)) = true.
Proof.
  unfold debug_run.
  match goal with
  | |- ?A /\ _ => assert (Hev : A) by (vm_compute; reflexivity)
  end.
  split; [exact Hev|].
  exact (@X4_uart_ready_before_print nat (simulated quiet)
           (sample_headers false true) 2%nat idle_state _ _ _ Hev eq_refl).
Defined.

Lemma X5_witness :
  evs quiet_run
  = firstn 23 (evs quiet_run)
    ++ Called Cy_CapSense_ScanAllWidgets (status 0) :: skipn 24 (evs quiet_run)
  /\ existsb (@succeeded (sample_headers true false) is_CapSense_Init)
       (firstn 23 (evs quiet_run)) = true
  /\ existsb (@succeeded (sample_headers true false) (installs capsense_isr))
       (firstn 23 (evs quiet_run)) = true
  /\ existsb (clears_pending 15) (firstn 23 (evs quiet_run)) = true
  /\ existsb (enables_irq 15) (firstn 23 (evs quiet_run)) = true
  /\ existsb (@succeeded (sample_headers true false) is_CapSense_Enable)
       (firstn 23 (evs quiet_run)) = true.
Proof.
  unfold quiet_run.
  match goal with
  | |- ?A /\ _ => assert (Hev : A) by (vm_compute; reflexivity)
  end.
  split; [exact Hev|].
  exact (@X5_scan_only_when_ready nat (simulated quiet)
           (sample_headers true false) 3%nat idle_state _ _ _ Hev eq_refl).
Defined.

Lemma X6_witness :
  evs quiet_run
  = firstn 5 (evs quiet_run)
    ++ Called (Cy_SCB_EZI2C_SetBuffer1 536871936 124 124) (status 0)
    :: skipn 6 (evs quiet_run)
  /\ existsb (@succeeded (sample_headers true false) is_EZI2C_Init)
       (firstn 5 (evs quiet_run)) = true
  /\ existsb (@succeeded (sample_headers true false) (installs ezi2c_isr))
       (firstn 5 (evs quiet_run)) = true
  /\ existsb (enables_irq 9) (firstn 5 (evs quiet_run)) = true.
Proof.
  unfold quiet_run.
  match goal with
  | |- ?A /\ _ => assert (Hev : A) by (vm_compute; reflexivity)
  end.
  split; [exact Hev|].
  exact (proj1 (@X6_tuner_buffer_set_up_in_order nat (simulated quiet)
                  (sample_headers true false) 3%nat idle_state _ _ _ Hev)
               eq_refl).
Defined.


Lemma X12_witness :
  In (Called (Cy_GPIO_Write 2 0 1) (status 0)) (evs quiet_run)
  /\ ((2 = 2 /\ 0 = 0) \/ (2 = 2 /\ 0 = 1))
  /\ (1 = 0 \/ 1 = 1).
Proof.
  unfold quiet_run.
  match goal with
  | |- ?A /\ _ => assert (Hin : A) by (vm_compute; do 17 right; left; reflexivity)
  end.
  split; [exact Hin|].
  exact (proj1 (@X12_only_leds_and_buttons nat (simulated quiet)
                  (sample_headers true false) 3%nat idle_state _ Hin)
               2 0 1 eq_refl).
Defined.

Lemma X13_witness :
  evs troubled_cycle
  = firstn 9 (evs troubled_cycle)
    ++ Called Cy_CapSense_ScanAllWidgets (status 0) :: []
  /\ @observes_busy nat (simulated troubled) (sample_headers true false) idle_state
     = false
  /\ existsb is_Process (firstn 9 (evs troubled_cycle)) = true
  /\ existsb is_RunTuner (firstn 9 (evs troubled_cycle)) = true
  /\ existsb is_Scan (firstn 9 (evs troubled_cycle)) = false
  /\ forallb is_PutString [] = true.
Proof.
  unfold troubled_cycle.
  match goal with
  | |- ?A /\ _ => assert (Hev : A) by (vm_compute; reflexivity)
  end.
  split; [exact Hev|].
  exact (@X13_scan_closes_iteration nat (simulated troubled)
           (sample_headers true false) idle_state _ _ _ Hev eq_refl).
Defined.


(** The report of a failed [Cy_CapSense_Init] with status 1, debug printing
    on. *)
Example report_of_failed_capsense_init :
  @failure_report (sample_headers false true) Cy_CapSense_Init 1
  = map Cy_SCB_UART_PutString
      [banner; (LF ++ "FAIL: ")%string;
       "API Cy_CapSense_Init failed with error code"%string;
       (CR ++ LF)%string;
       ("Error Code: 0x00000001" ++ LF)%string; banner].
Proof.
  vm_compute. reflexivity.
Qed.
